(** * StableDiffusionModelLoader: a shallow embedding and its properties

    The embedded file is
    [modules/modelLoader/StableDiffusionModelLoader.py].  The loader is glue
    code around library calls (transformers, diffusers, safetensors, torch,
    yaml, json, the file system).  Every library call is an event answered by
    a [World]; the loader itself is written in a small state-and-exception
    monad whose state is the history of library calls and the text printed so
    far.  What Python itself decides is computed, not asked of the world:
    subscripting, [in], [str + None], and the [TypeError] of [open],
    [os.path.join] and [os.path.splitext] on [None].  Leaving a [with] block
    (closing the file) is not an event. *)

From Stdlib Require Import Ascii String List Bool ZArith Lia.
Import ListNotations.
Local Open Scope string_scope.
Local Set Warnings "-register-all".

(** ** Python values *)

(** Values that [json.load] and [yaml.safe_load] can produce. A float is kept
    as its decimal literal. *)
Inductive pyval : Type :=
| PNone
| PBool (b : bool)
| PInt (z : Z)
| PFloat (literal : string)
| PStr (s : string)
| PList (items : list pyval)
| PDict (items : list (string * pyval)).

(** An opaque object handed out by a library (a tokenizer, a torch module, a
    pipeline, an open file, a state dict, a torch dtype). *)
Inductive pyobj : Type :=
| Obj (tag : string).

(** Exceptions. [Exception msg] is the plain [Exception(msg)] that [load]
    raises itself; [LibraryError cls] is any exception class that is neither
    a [TypeError], a [KeyError] nor a [FileNotFoundError]. *)
Inductive exn : Type :=
| Exception (msg : string)
| TypeError
| KeyError
| FileNotFoundError
| LibraryError (cls : string).

(** [except FileNotFoundError:] *)
Definition is_FileNotFoundError (e : exn) : bool :=
  match e with
  | FileNotFoundError => true
  | _ => false
  end.

Inductive outcome (A : Type) : Type :=
| Ret (a : A)
| Raise (e : exn).
Arguments Ret {A} a.
Arguments Raise {A} e.

Fixpoint dict_get (items : list (string * pyval)) (key : string) : option pyval :=
  match items with
  | [] => None
  | (k, v) :: rest => if String.eqb k key then Some v else dict_get rest key
  end.

(** [v[key]] with a string key: only a dict can be indexed by a string. *)
Definition subscript (v : pyval) (key : string) : outcome pyval :=
  match v with
  | PDict items =>
      match dict_get items key with
      | Some x => Ret x
      | None => Raise KeyError
      end
  | _ => Raise TypeError
  end.

(** [key in d] where [d] is what [f.metadata()] returned: a dict of strings,
    or [None] for a file without metadata, on which [in] is a [TypeError]. *)
Definition contains (d : option (list (string * string))) (key : string) : outcome bool :=
  match d with
  | Some items => Ret (existsb (fun kv => String.eqb (fst kv) key) items)
  | None => Raise TypeError
  end.

Definition metadata_value (d : option (list (string * string))) : pyval :=
  match d with
  | Some items => PDict (map (fun kv => (fst kv, PStr (snd kv))) items)
  | None => PNone
  end.

(** ** The data model *)

(** Modelled from the spec: the enum [modules.util.enum.ModelType] is not
    under src.  It has the eight Stable Diffusion members that
    [__default_yaml_name] names; [OTHER_MODEL_TYPE] stands for every other
    member. *)
Inductive ModelType : Type :=
| STABLE_DIFFUSION_15
| STABLE_DIFFUSION_15_INPAINTING
| STABLE_DIFFUSION_20
| STABLE_DIFFUSION_20_BASE
| STABLE_DIFFUSION_20_INPAINTING
| STABLE_DIFFUSION_20_DEPTH
| STABLE_DIFFUSION_21
| STABLE_DIFFUSION_21_BASE
| OTHER_MODEL_TYPE (name : string).

(** Modelled from the spec: [modules.util.ModelWeightDtypes] is not under
    src.  The loader reads its attributes [text_encoder], [vae] and [unet] and
    calls [torch_dtype()] on each. *)
Inductive DataType : Type :=
| DataType_member (name : string).

Record ModelWeightDtypes : Type := {
  wd_text_encoder : DataType;
  wd_vae : DataType;
  wd_unet : DataType
}.

(** Modelled from the spec: [modules.util.TrainProgress] is not under src; an
    instance holds the four keyword arguments it was built from. *)
Record TrainProgress : Type := {
  epoch : pyval;
  epoch_step : pyval;
  epoch_sample : pyval;
  global_step : pyval
}.

(** Modelled from the spec: [modules.util.modelSpec.ModelSpec] is not under
    src.  A model spec is represented by the call that built it: the default
    [ModelSpec()] or [ModelSpec.from_dict(d)]. *)
Inductive ModelSpec : Type :=
| ModelSpec_default
| ModelSpec_of_dict (d : pyval).

(** Modelled from the spec: [modules.model.StableDiffusionModel] is not under
    src.  The constructor stores its keyword arguments.  What it leaves in the
    three attributes that no constructor call of the loader passes
    ([train_progress], [optimizer_state_dict], [ema_state_dict]) is not known
    from the source: it is a parameter of the world, see [World]. *)
Record StableDiffusionModel : Type := {
  model_type : ModelType;
  tokenizer : pyobj;
  noise_scheduler : pyobj;
  text_encoder : pyobj;
  vae : pyobj;
  unet : pyobj;
  image_depth_processor : option pyobj;
  depth_estimator : option pyobj;
  sd_config : pyval;
  model_spec : option ModelSpec;
  optimizer_state_dict : option pyobj;
  ema_state_dict : option pyobj;
  train_progress : option TrainProgress
}.

Definition set_optimizer_state_dict (m : StableDiffusionModel) (v : pyobj) :=
  {| model_type := model_type m; tokenizer := tokenizer m;
     noise_scheduler := noise_scheduler m; text_encoder := text_encoder m;
     vae := vae m; unet := unet m;
     image_depth_processor := image_depth_processor m;
     depth_estimator := depth_estimator m; sd_config := sd_config m;
     model_spec := model_spec m; optimizer_state_dict := Some v;
     ema_state_dict := ema_state_dict m; train_progress := train_progress m |}.

Definition set_ema_state_dict (m : StableDiffusionModel) (v : pyobj) :=
  {| model_type := model_type m; tokenizer := tokenizer m;
     noise_scheduler := noise_scheduler m; text_encoder := text_encoder m;
     vae := vae m; unet := unet m;
     image_depth_processor := image_depth_processor m;
     depth_estimator := depth_estimator m; sd_config := sd_config m;
     model_spec := model_spec m; optimizer_state_dict := optimizer_state_dict m;
     ema_state_dict := Some v; train_progress := train_progress m |}.

Definition set_sd_config (m : StableDiffusionModel) (v : pyval) :=
  {| model_type := model_type m; tokenizer := tokenizer m;
     noise_scheduler := noise_scheduler m; text_encoder := text_encoder m;
     vae := vae m; unet := unet m;
     image_depth_processor := image_depth_processor m;
     depth_estimator := depth_estimator m; sd_config := v;
     model_spec := model_spec m; optimizer_state_dict := optimizer_state_dict m;
     ema_state_dict := ema_state_dict m; train_progress := train_progress m |}.

Definition set_train_progress (m : StableDiffusionModel) (v : TrainProgress) :=
  {| model_type := model_type m; tokenizer := tokenizer m;
     noise_scheduler := noise_scheduler m; text_encoder := text_encoder m;
     vae := vae m; unet := unet m;
     image_depth_processor := image_depth_processor m;
     depth_estimator := depth_estimator m; sd_config := sd_config m;
     model_spec := model_spec m; optimizer_state_dict := optimizer_state_dict m;
     ema_state_dict := ema_state_dict m; train_progress := Some v |}.

Definition set_model_spec (m : StableDiffusionModel) (v : ModelSpec) :=
  {| model_type := model_type m; tokenizer := tokenizer m;
     noise_scheduler := noise_scheduler m; text_encoder := text_encoder m;
     vae := vae m; unet := unet m;
     image_depth_processor := image_depth_processor m;
     depth_estimator := depth_estimator m; sd_config := sd_config m;
     model_spec := Some v; optimizer_state_dict := optimizer_state_dict m;
     ema_state_dict := ema_state_dict m; train_progress := train_progress m |}.

(** ** Library calls *)

(** One constructor per library entry point the loader calls, indexed by the
    type of the value the call returns.  The methods of classes of this
    repository that are not under src ([ModelType.has_depth_input],
    [DataType.torch_dtype], [ModelSpec()], [ModelSpec.from_dict]) are calls
    too: the world decides what they return and whether they raise. *)
Inductive libcall : Type -> Type :=
| builtin_open (path : string) (mode : string) : libcall pyobj
| json_load (file : pyobj) : libcall pyval
| yaml_safe_load (file : pyobj) : libcall pyval
| torch_load (path : string) : libcall pyobj
| os_path_exists (path : string) : libcall bool
| CLIPTokenizer_from_pretrained (name : option string) (subfolder : string) : libcall pyobj
| DDIMScheduler_from_pretrained (name : option string) (subfolder : string) : libcall pyobj
| CLIPTextModel_from_pretrained
    (name : option string) (subfolder : string) (torch_dtype : pyobj) : libcall pyobj
| AutoencoderKL_from_pretrained
    (name : option string) (subfolder : string) (torch_dtype : pyobj) : libcall pyobj
| UNet2DConditionModel_from_pretrained
    (name : option string) (subfolder : string) (torch_dtype : pyobj) : libcall pyobj
| DPTImageProcessor_from_pretrained (name : option string) (subfolder : string) : libcall pyobj
| DPTForDepthEstimation_from_pretrained
    (name : option string) (subfolder : string) (torch_dtype : pyobj) : libcall pyobj
| has_depth_input (mt : ModelType) : libcall bool
| torch_dtype (d : DataType) : libcall pyobj
| download_from_original_stable_diffusion_ckpt
    (checkpoint_path : option string) (original_config_file : option string)
    (load_safety_checker : bool) (from_safetensors : option bool) : libcall pyobj
| DDIMScheduler_init (kwargs : list (string * pyval)) : libcall pyobj
| getattr (o : pyobj) (attr : string) : libcall pyobj
| module_to (o : pyobj) (dtype : pyobj) : libcall pyobj
| safe_open (name : option string) (framework : string) : libcall pyobj
| metadata (file : pyobj) : libcall (option (list (string * string)))
| ModelSpec_init : libcall unit
| ModelSpec_from_dict (d : pyval) : libcall unit.

Inductive event : Type :=
| Ev {R : Type} (c : libcall R).

(** The environment of the loader.  A library call is answered from the
    history of the calls made before it (most recent first), so the file
    system and the libraries may change between calls.  [os.path.join] and
    [os.path.splitext] are pure functions of the platform; [format_exc] is
    [traceback.format_exc()] for the exception being handled.  The three
    [new_model_] fields are what [StableDiffusionModel(...)] leaves in the
    attributes that the loader does not pass to it. *)
Record World : Type := {
  respond : forall R : Type, list event -> libcall R -> outcome R;
  os_path_join : string -> list string -> string;
  os_path_splitext : string -> string * string;
  format_exc : exn -> string;
  new_model_optimizer_state_dict : option pyobj;
  new_model_ema_state_dict : option pyobj;
  new_model_train_progress : option TrainProgress
}.

(** ** The state-and-exception monad *)

Record State : Type := {
  calls : list event;     (* library calls made so far, most recent first *)
  stdout : list string    (* arguments of [print], most recent first *)
}.

Definition M (A : Type) : Type := State -> outcome A * State.

Definition ret {A : Type} (a : A) : M A := fun st => (Ret a, st).

Definition raise {A : Type} (e : exn) : M A := fun st => (Raise e, st).

Definition bind {A B : Type} (c : M A) (k : A -> M B) : M B :=
  fun st =>
    match c st with
    | (Ret a, st') => k a st'
    | (Raise e, st') => (Raise e, st')
    end.

(** [try: c except: h], where the handler sees the exception. *)
Definition try_except {A : Type} (c : M A) (h : exn -> M A) : M A :=
  fun st =>
    match c st with
    | (Ret a, st') => (Ret a, st')
    | (Raise e, st') => h e st'
    end.

(** [try: c except FileNotFoundError: h] *)
Definition try_except_FileNotFoundError {A : Type} (c : M A) (h : M A) : M A :=
  try_except c (fun e => if is_FileNotFoundError e then h else raise e).

Definition lift {A : Type} (o : outcome A) : M A := fun st => (o, st).

Definition print (s : string) : M unit :=
  fun st => (Ret tt, {| calls := calls st; stdout := s :: stdout st |}).

Declare Scope py_scope.
Delimit Scope py_scope with py.
Notation "x <- c1 ;; c2" := (bind c1 (fun x => c2))
  (at level 61, c1 at next level, right associativity) : py_scope.
Notation "c1 ;;; c2" := (bind c1 (fun _ => c2))
  (at level 61, right associativity) : py_scope.
Local Open Scope py_scope.

(** *** [StableDiffusionModelLoader.__default_yaml_name] *)
Definition __default_yaml_name (model_type : ModelType) : option string :=
  match model_type with
  | STABLE_DIFFUSION_15 =>
      Some "resources/diffusers_model_config/v1-inference.yaml"
  | STABLE_DIFFUSION_15_INPAINTING =>
      Some "resources/diffusers_model_config/v1-inpainting-inference.yaml"
  | STABLE_DIFFUSION_20 =>
      Some "resources/diffusers_model_config/v2-inference-v.yaml"
  | STABLE_DIFFUSION_20_BASE =>
      Some "resources/diffusers_model_config/v2-inference.yaml"
  | STABLE_DIFFUSION_20_INPAINTING =>
      Some "resources/diffusers_model_config/v2-inpainting-inference.yaml"
  | STABLE_DIFFUSION_20_DEPTH =>
      Some "resources/diffusers_model_config/v2-midas-inference.yaml"
  | STABLE_DIFFUSION_21 =>
      Some "resources/diffusers_model_config/v2-inference-v.yaml"
  | STABLE_DIFFUSION_21_BASE =>
      Some "resources/diffusers_model_config/v2-inference.yaml"
  | _ => None
  end.

Section Loader.

Variable w : World.

Definition call {R : Type} (c : libcall R) : M R :=
  fun st =>
    (respond w R (calls st) c, {| calls := Ev c :: calls st; stdout := stdout st |}).

(** [open(path, "r")]: a [None] path is a [TypeError]. *)
Definition py_open (path : option string) (mode : string) : M pyobj :=
  match path with
  | Some p => call (builtin_open p mode)
  | None => raise TypeError
  end.

(** [os.path.join(a, *parts)]: a [None] first component is a [TypeError]. *)
Definition py_os_path_join (a : option string) (parts : list string) : M string :=
  match a with
  | Some s => ret (os_path_join w s parts)
  | None => raise TypeError
  end.

(** [os.path.splitext(p)]: a [None] path is a [TypeError]. *)
Definition py_os_path_splitext (p : option string) : M (string * string) :=
  match p with
  | Some s => ret (os_path_splitext w s)
  | None => raise TypeError
  end.

(** ["literal" + v]: concatenating [None] to a [str] is a [TypeError]. *)
Definition py_str_add (s : string) (v : option string) : M string :=
  match v with
  | Some t => ret (s ++ t)
  | None => raise TypeError
  end.

(** [model.attr = v]: assigning an attribute of [None] is an
    [AttributeError]. *)
Definition py_setattr (model : option StableDiffusionModel)
    (update : StableDiffusionModel -> StableDiffusionModel)
  : M (option StableDiffusionModel) :=
  match model with
  | Some m => ret (Some (update m))
  | None => raise (LibraryError "AttributeError")
  end.

(** *** [StableDiffusionModelLoader.__load_diffusers] *)
Definition __load_diffusers
    (model_type : ModelType) (weight_dtypes : ModelWeightDtypes)
    (base_model_name : option string) : M (option StableDiffusionModel) :=
  tokenizer <- call (CLIPTokenizer_from_pretrained base_model_name "tokenizer") ;;
  noise_scheduler <- call (DDIMScheduler_from_pretrained base_model_name "scheduler") ;;
  dtype <- call (torch_dtype (wd_text_encoder weight_dtypes)) ;;
  text_encoder <- call (CLIPTextModel_from_pretrained base_model_name "text_encoder" dtype) ;;
  dtype <- call (torch_dtype (wd_vae weight_dtypes)) ;;
  vae <- call (AutoencoderKL_from_pretrained base_model_name "vae" dtype) ;;
  dtype <- call (torch_dtype (wd_unet weight_dtypes)) ;;
  unet <- call (UNet2DConditionModel_from_pretrained base_model_name "unet" dtype) ;;
  depth <- call (has_depth_input model_type) ;;
  image_depth_processor <-
    (if depth : bool
     then p <- call (DPTImageProcessor_from_pretrained base_model_name "feature_extractor") ;;
          ret (Some p)
     else ret None) ;;
  depth <- call (has_depth_input model_type) ;;
  depth_estimator <-
    (if depth : bool
     then dtype <- call (torch_dtype (wd_unet weight_dtypes)) ;;
          d <- call (DPTForDepthEstimation_from_pretrained
                       base_model_name "depth_estimator" dtype) ;;
          ret (Some d)
     else ret None) ;;
  f <- py_open (__default_yaml_name model_type) "r" ;;
  sd_config <- call (yaml_safe_load f) ;;
  call ModelSpec_init ;;;
  let model_spec := ModelSpec_default in
  ret (Some {| model_type := model_type;
               tokenizer := tokenizer;
               noise_scheduler := noise_scheduler;
               text_encoder := text_encoder;
               vae := vae;
               unet := unet;
               image_depth_processor := image_depth_processor;
               depth_estimator := depth_estimator;
               sd_config := sd_config;
               model_spec := Some model_spec;
               optimizer_state_dict := new_model_optimizer_state_dict w;
               ema_state_dict := new_model_ema_state_dict w;
               train_progress := new_model_train_progress w |}).

(** The [with open(os.path.join(base_model_name, "meta.json"), "r")] block
    that opens [__load_internal] (lines 52 to 59): it leaves the local
    variable [train_progress]. *)
Definition read_train_progress (base_model_name : option string) : M TrainProgress :=
  path <- py_os_path_join base_model_name ["meta.json"] ;;
  meta_file <- py_open (Some path) "r" ;;
  meta <- call (json_load meta_file) ;;
  tp <- lift (subscript meta "train_progress") ;;
  v_epoch <- lift (subscript tp "epoch") ;;
  tp <- lift (subscript meta "train_progress") ;;
  v_epoch_step <- lift (subscript tp "epoch_step") ;;
  tp <- lift (subscript meta "train_progress") ;;
  v_epoch_sample <- lift (subscript tp "epoch_sample") ;;
  tp <- lift (subscript meta "train_progress") ;;
  v_global_step <- lift (subscript tp "global_step") ;;
  ret {| epoch := v_epoch; epoch_step := v_epoch_step;
         epoch_sample := v_epoch_sample; global_step := v_global_step |}.

(** *** [StableDiffusionModelLoader.__load_internal] *)
Definition __load_internal
    (model_type : ModelType) (weight_dtypes : ModelWeightDtypes)
    (base_model_name : option string) : M (option StableDiffusionModel) :=
  train_progress <- read_train_progress base_model_name ;;
  (* base model *)
  model <- __load_diffusers model_type weight_dtypes base_model_name ;;
  (* optimizer *)
  model <- try_except_FileNotFoundError
             (path <- py_os_path_join base_model_name ["optimizer"; "optimizer.pt"] ;;
              v <- call (torch_load path) ;;
              py_setattr model (fun m => set_optimizer_state_dict m v))
             (ret model) ;;
  (* ema *)
  model <- try_except_FileNotFoundError
             (path <- py_os_path_join base_model_name ["ema"; "ema.pt"] ;;
              v <- call (torch_load path) ;;
              py_setattr model (fun m => set_ema_state_dict m v))
             (ret model) ;;
  f <- py_open (__default_yaml_name model_type) "r" ;;
  v <- call (yaml_safe_load f) ;;
  model <- py_setattr model (fun m => set_sd_config m v) ;;
  (* meta *)
  model <- py_setattr model (fun m => set_train_progress m train_progress) ;;
  (* model spec *)
  call ModelSpec_init ;;;
  model <- py_setattr model (fun m => set_model_spec m ModelSpec_default) ;;
  model <- try_except
             (path <- py_os_path_join base_model_name ["model_spec.json"] ;;
              model_spec_file <- py_open (Some path) "r" ;;
              d <- call (json_load model_spec_file) ;;
              call (ModelSpec_from_dict d) ;;;
              py_setattr model (fun m => set_model_spec m (ModelSpec_of_dict d)))
             (fun _ => ret model) ;;
  ret model.

(** The keyword arguments of both [DDIMScheduler(...)] constructor calls. *)
Definition ddim_scheduler_kwargs : list (string * pyval) :=
  [ ("num_train_timesteps", PInt 1000);
    ("beta_start", PFloat "0.00085");
    ("beta_end", PFloat "0.012");
    ("beta_schedule", PStr "scaled_linear");
    ("trained_betas", PNone);
    ("clip_sample", PBool false);
    ("set_alpha_to_one", PBool false);
    ("steps_offset", PInt 1);
    ("prediction_type", PStr "epsilon") ].

(** *** [StableDiffusionModelLoader.__load_ckpt] *)
Definition __load_ckpt
    (model_type : ModelType) (weight_dtypes : ModelWeightDtypes)
    (base_model_name : option string) : M (option StableDiffusionModel) :=
  root <- py_os_path_splitext base_model_name ;;
  let yaml_name := fst root ++ ".yaml" in
  found <- call (os_path_exists yaml_name) ;;
  yaml_name <-
    (if negb found
     then root <- py_os_path_splitext base_model_name ;;
          let yaml_name := fst root ++ ".yml" in
          found <- call (os_path_exists yaml_name) ;;
          if negb found
          then ret (__default_yaml_name model_type)
          else ret (Some yaml_name)
     else ret (Some yaml_name)) ;;
  pipeline <- call (download_from_original_stable_diffusion_ckpt
                      base_model_name yaml_name false None) ;;
  noise_scheduler <- call (DDIMScheduler_init ddim_scheduler_kwargs) ;;
  f <- py_open yaml_name "r" ;;
  sd_config <- call (yaml_safe_load f) ;;
  call ModelSpec_init ;;;
  let model_spec := ModelSpec_default in
  tokenizer <- call (getattr pipeline "tokenizer") ;;
  text_encoder <- call (getattr pipeline "text_encoder") ;;
  dtype <- call (torch_dtype (wd_text_encoder weight_dtypes)) ;;
  text_encoder <- call (module_to text_encoder dtype) ;;
  vae <- call (getattr pipeline "vae") ;;
  dtype <- call (torch_dtype (wd_vae weight_dtypes)) ;;
  vae <- call (module_to vae dtype) ;;
  unet <- call (getattr pipeline "unet") ;;
  dtype <- call (torch_dtype (wd_unet weight_dtypes)) ;;
  unet <- call (module_to unet dtype) ;;
  ret (Some {| model_type := model_type;
               tokenizer := tokenizer;
               noise_scheduler := noise_scheduler;
               text_encoder := text_encoder;
               vae := vae;
               unet := unet;
               image_depth_processor := None;
               depth_estimator := None;
               sd_config := sd_config;
               model_spec := Some model_spec;
               optimizer_state_dict := new_model_optimizer_state_dict w;
               ema_state_dict := new_model_ema_state_dict w;
               train_progress := new_model_train_progress w |}).

(** *** [StableDiffusionModelLoader.__load_safetensors] *)
Definition __load_safetensors
    (model_type : ModelType) (weight_dtypes : ModelWeightDtypes)
    (base_model_name : option string) : M (option StableDiffusionModel) :=
  root <- py_os_path_splitext base_model_name ;;
  let yaml_name := fst root ++ ".yaml" in
  found <- call (os_path_exists yaml_name) ;;
  yaml_name <-
    (if negb found
     then root <- py_os_path_splitext base_model_name ;;
          let yaml_name := fst root ++ ".yml" in
          found <- call (os_path_exists yaml_name) ;;
          if negb found
          then ret (__default_yaml_name model_type)
          else ret (Some yaml_name)
     else ret (Some yaml_name)) ;;
  pipeline <- call (download_from_original_stable_diffusion_ckpt
                      base_model_name yaml_name false (Some true)) ;;
  noise_scheduler <- call (DDIMScheduler_init ddim_scheduler_kwargs) ;;
  f <- py_open yaml_name "r" ;;
  sd_config <- call (yaml_safe_load f) ;;
  call ModelSpec_init ;;;
  model_spec <-
    try_except
      (f <- call (safe_open base_model_name "pt") ;;
       md <- call (metadata f) ;;
       present <- lift (contains md "modelspec.sai_model_spec") ;;
       if present : bool
       then md <- call (metadata f) ;;
            call (ModelSpec_from_dict (metadata_value md)) ;;;
            ret (ModelSpec_of_dict (metadata_value md))
       else ret ModelSpec_default)
      (fun _ => ret ModelSpec_default) ;;
  tokenizer <- call (getattr pipeline "tokenizer") ;;
  text_encoder <- call (getattr pipeline "text_encoder") ;;
  dtype <- call (torch_dtype (wd_text_encoder weight_dtypes)) ;;
  text_encoder <- call (module_to text_encoder dtype) ;;
  vae <- call (getattr pipeline "vae") ;;
  dtype <- call (torch_dtype (wd_vae weight_dtypes)) ;;
  vae <- call (module_to vae dtype) ;;
  unet <- call (getattr pipeline "unet") ;;
  dtype <- call (torch_dtype (wd_unet weight_dtypes)) ;;
  unet <- call (module_to unet dtype) ;;
  ret (Some {| model_type := model_type;
               tokenizer := tokenizer;
               noise_scheduler := noise_scheduler;
               text_encoder := text_encoder;
               vae := vae;
               unet := unet;
               image_depth_processor := None;
               depth_estimator := None;
               sd_config := sd_config;
               model_spec := Some model_spec;
               optimizer_state_dict := new_model_optimizer_state_dict w;
               ema_state_dict := new_model_ema_state_dict w;
               train_progress := new_model_train_progress w |}).

(** [for stacktrace in stacktraces: print(stacktrace)] *)
Fixpoint print_all (stacktraces : list string) : M unit :=
  match stacktraces with
  | [] => ret tt
  | stacktrace :: rest => print stacktrace ;;; print_all rest
  end.

(** One [try: model = strategy(...); if model is not None: return model
    except: stacktraces.append(traceback.format_exc())] block of [load].
    [inl model] is the early [return model]; [inr stacktraces] falls through
    to the next statement with the stack traces collected so far. *)
Definition attempt (strategy : M (option StableDiffusionModel))
    (stacktraces : list string)
  : M (option StableDiffusionModel + list string) :=
  try_except
    (model <- strategy ;;
     match model with
     | Some _ => ret (inl model)
     | None => ret (inr stacktraces)
     end)
    (fun e => ret (inr (stacktraces ++ [format_exc w e])%list)).

(** *** [StableDiffusionModelLoader.load] *)
Definition load
    (model_type : ModelType) (weight_dtypes : ModelWeightDtypes)
    (base_model_name : option string) (extra_model_name : option string)
  : M (option StableDiffusionModel) :=
  let stacktraces := [] in
  r <- attempt (__load_internal model_type weight_dtypes base_model_name) stacktraces ;;
  match r with
  | inl model => ret model
  | inr stacktraces =>
  r <- attempt (__load_diffusers model_type weight_dtypes base_model_name) stacktraces ;;
  match r with
  | inl model => ret model
  | inr stacktraces =>
  r <- attempt (__load_safetensors model_type weight_dtypes base_model_name) stacktraces ;;
  match r with
  | inl model => ret model
  | inr stacktraces =>
  r <- attempt (__load_ckpt model_type weight_dtypes base_model_name) stacktraces ;;
  match r with
  | inl model => ret model
  | inr stacktraces =>
  print_all stacktraces ;;;
  msg <- py_str_add "could not load model: " base_model_name ;;
  raise (Exception msg)
  end end end end.

End Loader.

Arguments call w {R} c st.

(** ** What the spec says, as definitions *)

(** The four loading strategies in their fixed priority order. *)
Definition strategies (w : World) (model_type : ModelType)
    (weight_dtypes : ModelWeightDtypes) (base_model_name : option string)
  : list (M (option StableDiffusionModel)) :=
  [ __load_internal w model_type weight_dtypes base_model_name;
    __load_diffusers w model_type weight_dtypes base_model_name;
    __load_safetensors w model_type weight_dtypes base_model_name;
    __load_ckpt w model_type weight_dtypes base_model_name ].

(** "Try several loading strategies in priority order, catching and
    collecting failures": the first strategy that returns a model wins; when
    none is left the collected stack traces are printed and the error is
    raised. *)
Fixpoint try_in_order (w : World) (candidates : list (M (option StableDiffusionModel)))
    (stacktraces : list string) (base_model_name : option string)
  : M (option StableDiffusionModel) :=
  match candidates with
  | [] =>
      print_all stacktraces ;;;
      msg <- py_str_add "could not load model: " base_model_name ;;
      raise (Exception msg)
  | strategy :: rest =>
      fun st =>
        match strategy st with
        | (Ret (Some m), st') => (Ret (Some m), st')
        | (Ret None, st') => try_in_order w rest stacktraces base_model_name st'
        | (Raise e, st') =>
            try_in_order w rest (stacktraces ++ [format_exc w e])%list base_model_name st'
        end
  end.

(** [fail_run w candidates st stacktraces st']: run from [st], every
    candidate fails in turn, the run ends in [st'] and [stacktraces] holds one
    formatted traceback per candidate that raised, oldest first. *)
Inductive fail_run (w : World)
  : list (M (option StableDiffusionModel)) -> State -> list string -> State -> Prop :=
| fail_run_nil : forall st, fail_run w [] st [] st
| fail_run_raise : forall strategy rest st e st1 stacktraces st2,
    strategy st = (Raise e, st1) ->
    fail_run w rest st1 stacktraces st2 ->
    fail_run w (strategy :: rest) st (format_exc w e :: stacktraces) st2
| fail_run_none : forall strategy rest st st1 stacktraces st2,
    strategy st = (Ret None, st1) ->
    fail_run w rest st1 stacktraces st2 ->
    fail_run w (strategy :: rest) st stacktraces st2.

(** The state after [print] was called on each of [lines], first to last. *)
Definition printed (lines : list string) (st : State) : State :=
  {| calls := calls st; stdout := (rev lines ++ stdout st)%list |}.

(** The state after the library call [c]. *)
Definition called {R : Type} (c : libcall R) (st : State) : State :=
  {| calls := Ev c :: calls st; stdout := stdout st |}.

(** The config file that the fallback chain of [__load_ckpt] and
    [__load_safetensors] is said to pick: the [.yaml] sidecar, else the [.yml]
    sidecar, else the default of the model type. *)
Definition sidecar (w : World) (base_model_name : string) (ext : string) : string :=
  fst (os_path_splitext w base_model_name) ++ ext.

Definition config_file_chain (w : World) (model_type : ModelType)
    (base_model_name : string) (yaml_exists yml_exists : bool) : option string :=
  if yaml_exists then Some (sidecar w base_model_name ".yaml")
  else if yml_exists then Some (sidecar w base_model_name ".yml")
  else __default_yaml_name model_type.

(** [post c st Q]: the outcome and final state of running [c] from [st]
    satisfy [Q]. *)
Definition post {A : Type} (c : M A) (st : State) (Q : outcome A -> State -> Prop) : Prop :=
  Q (fst (c st)) (snd (c st)).

(** [h'] is [h] with further calls in front of it. *)
Inductive extends (h : list event) : list event -> Prop :=
| extends_here : extends h h
| extends_call : forall ev h', extends h h' -> extends h (ev :: h').

(** ** A concrete world

    A POSIX platform with a small disk, used to run the loader on concrete
    inputs. *)
Module Demo.

Fixpoint rfind_from (c : Ascii.ascii) (s : string) (i : Z) : Z :=
  match s with
  | EmptyString => (-1)%Z
  | String x rest =>
      let later := rfind_from c rest (i + 1)%Z in
      if (0 <=? later)%Z then later
      else if Ascii.eqb x c then i else (-1)%Z
  end.

(** [s.rfind(c)] *)
Definition rfind (c : Ascii.ascii) (s : string) : Z := rfind_from c s 0%Z.

(** [s[i:i+1] != "."] *)
Definition not_dot_at (s : string) (i : nat) : bool :=
  match String.get i s with
  | Some c => negb (Ascii.eqb c "."%char)
  | None => true
  end.

(** [posixpath.splitext]: the extension starts at the last dot of the last
    path component, leading dots of that component apart. *)
Definition splitext (p : string) : string * string :=
  let sepIndex := rfind "/"%char p in
  let dotIndex := rfind "."%char p in
  if (sepIndex <? dotIndex)%Z
  then
    let filenameIndex := Z.to_nat (sepIndex + 1) in
    let dot := Z.to_nat dotIndex in
    if existsb (not_dot_at p) (seq filenameIndex (dot - filenameIndex))
    then (String.substring 0 dot p, String.substring dot (String.length p - dot) p)
    else (p, "")
  else (p, "").

Fixpoint ends_with_slash (s : string) : bool :=
  match s with
  | EmptyString => false
  | String c EmptyString => Ascii.eqb c "/"%char
  | String _ rest => ends_with_slash rest
  end.

(** [posixpath.join] *)
Definition join (a : string) (parts : list string) : string :=
  fold_left
    (fun path b =>
       if String.prefix "/" b then b
       else if String.eqb path "" || ends_with_slash path then path ++ b
       else path ++ "/" ++ b)
    parts a.

Definition mem (x : string) (l : list string) : bool := existsb (String.eqb x) l.

(** Regular files on the disk. *)
Definition files : list string :=
  [ "resources/diffusers_model_config/v1-inference.yaml";
    "resources/diffusers_model_config/v1-inpainting-inference.yaml";
    "resources/diffusers_model_config/v2-inference-v.yaml";
    "resources/diffusers_model_config/v2-inference.yaml";
    "resources/diffusers_model_config/v2-inpainting-inference.yaml";
    "resources/diffusers_model_config/v2-midas-inference.yaml";
    "runs/backup/meta.json";
    "runs/backup/model_spec.json";
    "runs/backup/ema/ema.pt";
    "runs/broken/meta.json";
    "runs/broken/optimizer/optimizer.pt";
    "models/anime.safetensors";
    "models/anime.yaml";
    "models/plain.safetensors";
    "models/old.ckpt";
    "models/old.yml" ].

(** Files that [torch.load] cannot unpickle. *)
Definition corrupt : list string := [ "runs/broken/optimizer/optimizer.pt" ].

Definition meta_json : pyval :=
  PDict [ ("train_progress",
           PDict [ ("epoch", PInt 3); ("epoch_step", PInt 120);
                   ("epoch_sample", PInt 480); ("global_step", PInt 1320) ]) ].

Definition model_spec_json : pyval :=
  PDict [ ("modelspec.sai_model_spec", PStr "1.0.0");
          ("modelspec.architecture", PStr "stable-diffusion-v1") ].

Definition anime_metadata : list (string * string) :=
  [ ("modelspec.sai_model_spec", "1.0.0"); ("modelspec.title", "anime") ].

(** The path a Hugging Face loader looks at: in this world it turns its
    argument into a string first, so [None] names the directory ["None"].
    [CLIPTextModel.from_pretrained] is the exception: it rejects [None], see
    [answer]. *)
Definition hub_path (name : option string) : string :=
  match name with
  | Some s => s
  | None => "None"
  end.

Definition from_pretrained (dirs : list string) (cls : string)
    (name : option string) (subfolder : string) : outcome pyobj :=
  if mem (hub_path name) dirs
  then Ret (Obj (cls ++ ":" ++ join (hub_path name) [subfolder]))
  else Raise (LibraryError "OSError").

Definition tag (o : pyobj) : string :=
  match o with
  | Obj t => t
  end.

(** The answers of the libraries; [dirs] are the directories in diffusers
    layout.  The history of calls is not looked at: nothing on this disk
    changes. *)
Definition answer (dirs : list string) (R : Type) (history : list event) (c : libcall R)
  : outcome R :=
  match c in libcall T return outcome T with
  | builtin_open path _ =>
      if mem path files then Ret (Obj path) else Raise FileNotFoundError
  | json_load file =>
      if String.eqb (tag file) "runs/backup/meta.json" then Ret meta_json
      else if String.eqb (tag file) "runs/broken/meta.json" then Ret meta_json
      else if String.eqb (tag file) "runs/backup/model_spec.json" then Ret model_spec_json
      else Raise (LibraryError "JSONDecodeError")
  | yaml_safe_load file => Ret (PDict [ ("config", PStr (tag file)) ])
  | torch_load path =>
      if mem path corrupt then Raise (LibraryError "UnpicklingError")
      else if mem path files then Ret (Obj path)
      else Raise FileNotFoundError
  | os_path_exists path => Ret (mem path files || mem path dirs)
  | CLIPTokenizer_from_pretrained name subfolder =>
      from_pretrained dirs "CLIPTokenizer" name subfolder
  | DDIMScheduler_from_pretrained name subfolder =>
      from_pretrained dirs "DDIMScheduler" name subfolder
  | CLIPTextModel_from_pretrained name subfolder _ =>
      match name with
      | Some _ => from_pretrained dirs "CLIPTextModel" name subfolder
      | None => Raise (LibraryError "AttributeError")
      end
  | AutoencoderKL_from_pretrained name subfolder _ =>
      from_pretrained dirs "AutoencoderKL" name subfolder
  | UNet2DConditionModel_from_pretrained name subfolder _ =>
      from_pretrained dirs "UNet2DConditionModel" name subfolder
  | DPTImageProcessor_from_pretrained name subfolder =>
      from_pretrained dirs "DPTImageProcessor" name subfolder
  | DPTForDepthEstimation_from_pretrained name subfolder _ =>
      from_pretrained dirs "DPTForDepthEstimation" name subfolder
  | has_depth_input mt =>
      match mt with
      | STABLE_DIFFUSION_20_DEPTH => Ret true
      | _ => Ret false
      end
  | torch_dtype (DataType_member name) => Ret (Obj ("torch." ++ name))
  | download_from_original_stable_diffusion_ckpt checkpoint_path _ _ from_safetensors =>
      match checkpoint_path, from_safetensors with
      | Some "models/anime.safetensors", Some true => Ret (Obj "pipeline:anime")
      | Some "models/plain.safetensors", Some true => Ret (Obj "pipeline:plain")
      | Some "models/old.ckpt", None => Ret (Obj "pipeline:old")
      | _, _ => Raise (LibraryError "UnpicklingError")
      end
  | DDIMScheduler_init _ => Ret (Obj "DDIMScheduler")
  | getattr o attr => Ret (Obj (tag o ++ "." ++ attr))
  | module_to o _ => Ret o
  | safe_open name _ =>
      match name with
      | Some "models/anime.safetensors" => Ret (Obj "safetensors:anime")
      | Some "models/plain.safetensors" => Ret (Obj "safetensors:plain")
      | _ => Raise (LibraryError "SafetensorError")
      end
  | metadata file =>
      if String.eqb (tag file) "safetensors:anime" then Ret (Some anime_metadata)
      else Ret None
  | ModelSpec_init => Ret tt
  | ModelSpec_from_dict _ => Ret tt
  end.

Definition exn_name (e : exn) : string :=
  match e with
  | Exception _ => "Exception"
  | TypeError => "TypeError"
  | KeyError => "KeyError"
  | FileNotFoundError => "FileNotFoundError"
  | LibraryError cls => cls
  end.

Definition world (dirs : list string) : World :=
  {| respond := answer dirs;
     os_path_join := join;
     os_path_splitext := splitext;
     format_exc := fun e => "Traceback (most recent call last): " ++ exn_name e;
     new_model_optimizer_state_dict := None;
     new_model_ema_state_dict := None;
     new_model_train_progress := None |}.

(** The disk as it is: two directories in diffusers layout. *)
Definition disk : World := world [ "runs/backup"; "runs/broken"; "hub/sd15" ].

(** The same disk with one more directory in diffusers layout, called
    [None]. *)
Definition disk_with_None_dir : World :=
  world [ "runs/backup"; "runs/broken"; "hub/sd15"; "None" ].

Definition float32 : ModelWeightDtypes :=
  {| wd_text_encoder := DataType_member "float32";
     wd_vae := DataType_member "float32";
     wd_unet := DataType_member "float32" |}.

Definition start : State := {| calls := []; stdout := [] |}.

End Demo.

(** ** Predicates used in the statements *)

Local Open Scope list_scope.

(** The one fact about the libraries that the statement on
    [base_model_name = None] rests on: [CLIPTextModel.from_pretrained] raises
    when its path argument is [None]. *)
Definition text_encoder_rejects_None (w : World) : Prop :=
  forall h subfolder dtype,
    exists e,
      respond w pyobj h (CLIPTextModel_from_pretrained None subfolder dtype) = Raise e.

(** What a strategy hands back, when it hands back anything, is a model
    whose [model_spec] was built by [ModelSpec()] or by
    [ModelSpec.from_dict]. *)
Definition returns_model_with_spec (r : outcome (option StableDiffusionModel)) : Prop :=
  match r with
  | Ret (Some m) =>
      model_spec m = Some ModelSpec_default
      \/ exists d, model_spec m = Some (ModelSpec_of_dict d)
  | Ret None => False
  | Raise _ => True
  end.

(** The exception that ends [load] when no strategy is left. *)
Definition final_error (base_model_name : option string) : exn :=
  match base_model_name with
  | Some s => Exception ("could not load model: " ++ s)%string
  | None => TypeError
  end.

(** The library calls that probe for the sidecar files, most recent first. *)
Definition sidecar_probes (w : World) (base_model_name : string) (yaml_exists : bool)
  : list event :=
  if yaml_exists
  then [ Ev (os_path_exists (sidecar w base_model_name ".yaml")) ]
  else [ Ev (os_path_exists (sidecar w base_model_name ".yml"));
         Ev (os_path_exists (sidecar w base_model_name ".yaml")) ].

(** [strategy], run from [st] on the checkpoint [s], probes for the sidecar
    files and then converts the checkpoint with the config file the chain
    picks as [original_config_file]. *)
Definition converts_with_chain (w : World) (mt : ModelType) (s : string)
    (strategy : M (option StableDiffusionModel)) (from_safetensors : option bool)
    (st : State) : Prop :=
  forall yaml_exists yml_exists,
    respond w bool (calls st) (os_path_exists (sidecar w s ".yaml")) = Ret yaml_exists ->
    (yaml_exists = false ->
     respond w bool (Ev (os_path_exists (sidecar w s ".yaml")) :: calls st)
             (os_path_exists (sidecar w s ".yml")) = Ret yml_exists) ->
    extends
      (Ev (download_from_original_stable_diffusion_ckpt
             (Some s) (config_file_chain w mt s yaml_exists yml_exists)
             false from_safetensors)
         :: sidecar_probes w s yaml_exists ++ calls st)
      (calls (snd (strategy st))).

(** [strategy], run from [st] on the checkpoint [s]: once the converter and
    the [DDIMScheduler] constructor have returned, the file opened to read
    [sd_config] is the one the chain picked; with no file picked, [open(None)]
    ends the strategy with a [TypeError]. *)
Definition reads_config_of_chain (w : World) (mt : ModelType) (s : string)
    (strategy : M (option StableDiffusionModel)) (from_safetensors : option bool)
    (st : State) : Prop :=
  forall yaml_exists yml_exists pipeline scheduler,
    respond w bool (calls st) (os_path_exists (sidecar w s ".yaml")) = Ret yaml_exists ->
    (yaml_exists = false ->
     respond w bool (Ev (os_path_exists (sidecar w s ".yaml")) :: calls st)
             (os_path_exists (sidecar w s ".yml")) = Ret yml_exists) ->
    let chosen := config_file_chain w mt s yaml_exists yml_exists in
    let h := sidecar_probes w s yaml_exists ++ calls st in
    let download :=
      download_from_original_stable_diffusion_ckpt (Some s) chosen false from_safetensors in
    let construct := DDIMScheduler_init ddim_scheduler_kwargs in
    respond w pyobj h download = Ret pipeline ->
    respond w pyobj (Ev download :: h) construct = Ret scheduler ->
    match chosen with
    | Some config =>
        extends (Ev (builtin_open config "r") :: Ev construct :: Ev download :: h)
                (calls (snd (strategy st)))
    | None =>
        fst (strategy st) = Raise TypeError
        /\ snd (strategy st)
           = {| calls := Ev construct :: Ev download :: h; stdout := stdout st |}
    end.


(** ** C6: where the model spec comes from *)





(** The value a run returned, [None] when it raised. *)
Definition returned {A : Type} (run : outcome (option A) * State) : option A :=
  match fst run with
  | Ret x => x
  | Raise _ => None
  end.

(** The [torch.load] calls of [__load_internal]. *)
Definition optimizer_load (w : World) (s : string) : libcall pyobj :=
  torch_load (os_path_join w s ["optimizer"; "optimizer.pt"]%string).

Definition ema_load (w : World) (s : string) : libcall pyobj :=
  torch_load (os_path_join w s ["ema"; "ema.pt"]%string).

(** The value of a state-dict attribute after its [try] block: the loaded
    object, or what the attribute held before when the load raised. *)
Definition loaded_or (before : option pyobj) (answer : outcome pyobj) : option pyobj :=
  match answer with
  | Ret v => Some v
  | Raise _ => before
  end.

(** The load did not end the strategy: it returned, or raised
    [FileNotFoundError]. *)
Definition tolerated (answer : outcome pyobj) : Prop :=
  match answer with
  | Ret _ => True
  | Raise e => is_FileNotFoundError e = true
  end.

(** * Properties *)

(** ** Reasoning rules for the monad *)

Section Rules.

Variable w : World.

Lemma post_run {A : Type} (c : M A) st r st' (Q : outcome A -> State -> Prop) :
  c st = (r, st') -> post c st Q -> Q r st'.
Proof. unfold post. intros ->. exact (fun H => H). Qed.

Lemma post_intro {A : Type} (c : M A) st (Q : outcome A -> State -> Prop) :
  (forall r st', c st = (r, st') -> Q r st') -> post c st Q.
Proof. unfold post. intros H. apply H. destruct (c st); reflexivity. Qed.

Lemma post_conseq {A : Type} (c : M A) st (P Q : outcome A -> State -> Prop) :
  post c st P -> (forall r st', P r st' -> Q r st') -> post c st Q.
Proof. unfold post. intros HP HPQ. apply HPQ, HP. Qed.

Lemma post_ret {A : Type} (a : A) st (Q : outcome A -> State -> Prop) :
  Q (Ret a) st -> post (ret a) st Q.
Proof. exact (fun H => H). Qed.

Lemma post_raise {A : Type} (e : exn) st (Q : outcome A -> State -> Prop) :
  Q (Raise e) st -> post (raise e) st Q.
Proof. exact (fun H => H). Qed.

Lemma post_lift {A : Type} (o : outcome A) st (Q : outcome A -> State -> Prop) :
  Q o st -> post (lift o) st Q.
Proof. exact (fun H => H). Qed.

Lemma post_call {R : Type} (c : libcall R) st (Q : outcome R -> State -> Prop) :
  Q (respond w R (calls st) c) (called c st) -> post (call w c) st Q.
Proof. exact (fun H => H). Qed.

Lemma post_bind {A B : Type} (c : M A) (k : A -> M B) st
    (Q : outcome B -> State -> Prop) :
  post c st (fun r st' =>
               match r with
               | Ret a => post (k a) st' Q
               | Raise e => Q (Raise e) st'
               end) ->
  post (bind c k) st Q.
Proof.
  unfold post, bind. destruct (c st) as [[a | e] st']; exact (fun H => H).
Qed.

Lemma post_try_except {A : Type} (c : M A) (h : exn -> M A) st
    (Q : outcome A -> State -> Prop) :
  post c st (fun r st' =>
               match r with
               | Ret a => Q (Ret a) st'
               | Raise e => post (h e) st' Q
               end) ->
  post (try_except c h) st Q.
Proof.
  unfold post, try_except. destruct (c st) as [[a | e] st']; exact (fun H => H).
Qed.

End Rules.

(** One step of symbolic execution: the rule of the statement at the head of
    the program, with a case split on the answer of a library call. *)
Ltac wp_step :=
  cbv beta;
  lazymatch goal with
  | |- post (bind _ _) _ _ => apply post_bind
  | |- post (ret _) _ _ => apply post_ret
  | |- post (raise _) _ _ => apply post_raise
  | |- post (lift (Ret _)) _ _ => apply post_lift; cbv beta iota
  | |- post (lift (Raise _)) _ _ => apply post_lift; cbv beta iota
  | |- post (lift ?o) _ _ =>
      apply post_lift; destruct o eqn:?; cbv beta iota
  | |- post (call ?w ?c) ?st _ =>
      apply post_call; destruct (respond w _ (calls st) c) eqn:?; cbv beta iota
  | |- post (try_except _ _) _ _ => apply post_try_except
  | |- post (try_except_FileNotFoundError _ _) _ _ =>
      unfold try_except_FileNotFoundError
  | |- post (py_setattr ?m _) _ _ => unfold py_setattr
  | |- post (py_open _ ?p _) _ _ => unfold py_open
  | |- post (py_os_path_join _ ?p _) _ _ => unfold py_os_path_join
  | |- post (py_os_path_splitext _ ?p) _ _ => unfold py_os_path_splitext
  | |- post (py_str_add _ ?p) _ _ => unfold py_str_add
  | |- post (if ?b then _ else _) _ _ => destruct b eqn:?
  | |- post (match ?x with _ => _ end) _ _ => destruct x eqn:?
  end.

Ltac wp := repeat wp_step.

(** ** The strategies never return [None] *)

Lemma load_diffusers_returns_model w mt wd name st :
  post (__load_diffusers w mt wd name) st (fun r _ => returns_model_with_spec r).
Proof.
  unfold __load_diffusers. wp; simpl; auto.
Qed.

Lemma load_internal_returns_model w mt wd name st :
  post (__load_internal w mt wd name) st (fun r _ => returns_model_with_spec r).
Proof.
  unfold __load_internal, read_train_progress. wp; try exact I.
  apply post_intro. intros r st' Hrun.
  pose proof (post_run _ _ _ _ _ Hrun (load_diffusers_returns_model _ _ _ _ _)) as Hr.
  simpl in Hr. destruct r as [[m | ] | e]; try exact I; try contradiction.
  wp; simpl; eauto.
Qed.

Lemma load_ckpt_returns_model w mt wd name st :
  post (__load_ckpt w mt wd name) st (fun r _ => returns_model_with_spec r).
Proof.
  unfold __load_ckpt. wp; simpl; auto.
Qed.

Lemma load_safetensors_returns_model w mt wd name st :
  post (__load_safetensors w mt wd name) st (fun r _ => returns_model_with_spec r).
Proof.
  unfold __load_safetensors. wp; simpl; eauto.
Qed.

Lemma strategies_return_model w mt wd name s st :
  In s (strategies w mt wd name) ->
  post s st (fun r _ => returns_model_with_spec r).
Proof.
  unfold strategies. simpl.
  intros [<- | [<- | [<- | [<- | []]]]].
  - apply load_internal_returns_model.
  - apply load_diffusers_returns_model.
  - apply load_safetensors_returns_model.
  - apply load_ckpt_returns_model.
Qed.

(** ** [load] as a chain of attempts *)

Lemma print_all_run lines st :
  print_all lines st = (Ret tt, printed lines st).
Proof.
  revert st. induction lines as [| line rest IH]; intros st.
  - destruct st; reflexivity.
  - simpl. unfold bind, print. rewrite IH. unfold printed. simpl.
    rewrite <- app_assoc. reflexivity.
Qed.

Lemma try_in_order_nil w stacktraces name st :
  try_in_order w [] stacktraces name st
  = (Raise (final_error name), printed stacktraces st).
Proof.
  simpl. unfold bind. rewrite print_all_run. destruct name; reflexivity.
Qed.

Lemma try_in_order_cons w s rest stacktraces name st :
  try_in_order w (s :: rest) stacktraces name st
  = match s st with
    | (Ret (Some m), st') => (Ret (Some m), st')
    | (Ret None, st') => try_in_order w rest stacktraces name st'
    | (Raise e, st') =>
        try_in_order w rest (stacktraces ++ [format_exc w e]) name st'
    end.
Proof. reflexivity. Qed.

Lemma load_refines_try_in_order w mt wd name extra st :
  load w mt wd name extra st
  = try_in_order w (strategies w mt wd name) [] name st.
Proof.
  unfold load, strategies.
  generalize (__load_internal w mt wd name) (__load_diffusers w mt wd name)
             (__load_safetensors w mt wd name) (__load_ckpt w mt wd name).
  intros s1 s2 s3 s4.
  cbn [try_in_order]. unfold attempt, try_except, bind, ret.
  destruct (s1 st) as [[[m1 | ] | e1] st1]; try reflexivity;
    destruct (s2 st1) as [[[m2 | ] | e2] st2]; try reflexivity;
    destruct (s3 st2) as [[[m3 | ] | e3] st3]; try reflexivity;
    destruct (s4 st3) as [[[m4 | ] | e4] st4]; reflexivity.
Qed.

Lemma try_in_order_skips_failures w name before st stacktraces st_k :
  fail_run w before st stacktraces st_k ->
  forall rest collected,
    try_in_order w (before ++ rest) collected name st
    = try_in_order w rest (collected ++ stacktraces) name st_k.
Proof.
  induction 1 as [st | s before st e st1 traces st2 Hs _ IH
                  | s before st st1 traces st2 Hs _ IH];
    intros rest collected.
  - rewrite app_nil_r. reflexivity.
  - simpl. rewrite Hs, IH, <- app_assoc. reflexivity.
  - simpl. rewrite Hs, IH. reflexivity.
Qed.

Lemma try_in_order_first_success w name before s others st stacktraces st_k m st' :
  fail_run w before st stacktraces st_k ->
  s st_k = (Ret (Some m), st') ->
  try_in_order w (before ++ s :: others) [] name st = (Ret (Some m), st').
Proof.
  intros Hfail Hs.
  rewrite (try_in_order_skips_failures _ _ _ _ _ _ Hfail).
  simpl. rewrite Hs. reflexivity.
Qed.

(** ** C1: the first strategy that succeeds wins *)

(** C1. [load] runs the four strategies in the order [__load_internal],
    [__load_diffusers], [__load_safetensors], [__load_ckpt] ([load] is
    [try_in_order] over that list).  Whenever the strategies before [s] have
    failed in turn and [s] returns a model, [load] returns that very model and
    stops in the state in which [s] left off; the strategies listed after [s]
    are not run: whatever stands in their place, the result and the final
    state (library calls made, text printed) are the same. *)
Theorem load_returns_first_success
    w mt wd name extra before s after st stacktraces st_k m st' :
  strategies w mt wd name = before ++ s :: after ->
  fail_run w before st stacktraces st_k ->
  s st_k = (Ret (Some m), st') ->
  strategies w mt wd name
  = [ __load_internal w mt wd name; __load_diffusers w mt wd name;
      __load_safetensors w mt wd name; __load_ckpt w mt wd name ]
  /\ load w mt wd name extra st = (Ret (Some m), st')
  /\ forall others,
       try_in_order w (before ++ s :: others) [] name st = (Ret (Some m), st').
Proof.
  intros Hsplit Hfail Hs. split; [reflexivity | split].
  - rewrite load_refines_try_in_order, Hsplit.
    eapply try_in_order_first_success; eassumption.
  - intros others. eapply try_in_order_first_success; eassumption.
Qed.

Lemma load_returns_first_success_witness :
  exists m st',
    load Demo.disk STABLE_DIFFUSION_15 Demo.float32
         (Some "models/anime.safetensors") None Demo.start
    = (Ret (Some m), st')
    /\ tokenizer m = Obj "pipeline:anime.tokenizer".
Proof.
  pose (name := Some "models/anime.safetensors").
  pose (dsk := Demo.disk).
  pose (mt := STABLE_DIFFUSION_15).
  pose (wd := Demo.float32).
  eexists. eexists. split.
  - refine (proj1 (proj2 (load_returns_first_success
             dsk mt wd name None
             [ __load_internal dsk mt wd name; __load_diffusers dsk mt wd name ]
             (__load_safetensors dsk mt wd name)
             [ __load_ckpt dsk mt wd name ]
             Demo.start _ _ _ _ _ _ _))).
    + reflexivity.
    + eapply fail_run_raise; [vm_compute; reflexivity |].
      eapply fail_run_raise; [vm_compute; reflexivity |].
      apply fail_run_nil.
    + vm_compute. reflexivity.
  - reflexivity.
Defined.

(** ** C4: the default config file of a model type *)

(** C4. [__default_yaml_name] is a function of the model type alone (it
    takes no world and no state): it gives the listed
    [resources/diffusers_model_config/*.yaml] path for each of the eight
    Stable Diffusion model types, the same file for [STABLE_DIFFUSION_20] and
    [STABLE_DIFFUSION_21], the same file for [STABLE_DIFFUSION_20_BASE] and
    [STABLE_DIFFUSION_21_BASE], and [None] for every other model type. *)
Theorem default_yaml_name_table :
  __default_yaml_name STABLE_DIFFUSION_15
  = Some "resources/diffusers_model_config/v1-inference.yaml"%string
  /\ __default_yaml_name STABLE_DIFFUSION_15_INPAINTING
     = Some "resources/diffusers_model_config/v1-inpainting-inference.yaml"%string
  /\ __default_yaml_name STABLE_DIFFUSION_20
     = Some "resources/diffusers_model_config/v2-inference-v.yaml"%string
  /\ __default_yaml_name STABLE_DIFFUSION_20_BASE
     = Some "resources/diffusers_model_config/v2-inference.yaml"%string
  /\ __default_yaml_name STABLE_DIFFUSION_20_INPAINTING
     = Some "resources/diffusers_model_config/v2-inpainting-inference.yaml"%string
  /\ __default_yaml_name STABLE_DIFFUSION_20_DEPTH
     = Some "resources/diffusers_model_config/v2-midas-inference.yaml"%string
  /\ __default_yaml_name STABLE_DIFFUSION_21
     = Some "resources/diffusers_model_config/v2-inference-v.yaml"%string
  /\ __default_yaml_name STABLE_DIFFUSION_21_BASE
     = Some "resources/diffusers_model_config/v2-inference.yaml"%string
  /\ (forall name, __default_yaml_name (OTHER_MODEL_TYPE name) = None)
  /\ (forall mt, __default_yaml_name mt = None -> exists name, mt = OTHER_MODEL_TYPE name).
Proof.
  repeat split.
  intros mt; destruct mt; simpl; try discriminate. intros _. eauto.
Qed.

(** ** C3: every failure is caught and collected *)

Lemma strategy_run_cases w mt wd name s st :
  In s (strategies w mt wd name) ->
  (exists m st', s st = (Ret (Some m), st'))
  \/ (exists e st', s st = (Raise e, st')).
Proof.
  intros Hin.
  pose proof (strategies_return_model w mt wd name s st Hin) as H.
  unfold post in H. destruct (s st) as [[[m | ] | e] st']; simpl in H.
  - left. eauto.
  - contradiction.
  - right. eauto.
Qed.

Lemma load_raise_inv w mt wd name extra st ex st' :
  load w mt wd name extra st = (Raise ex, st') ->
  exists e1 st1 e2 st2 e3 st3 e4 st4,
    __load_internal w mt wd name st = (Raise e1, st1)
    /\ __load_diffusers w mt wd name st1 = (Raise e2, st2)
    /\ __load_safetensors w mt wd name st2 = (Raise e3, st3)
    /\ __load_ckpt w mt wd name st3 = (Raise e4, st4)
    /\ ex = final_error name
    /\ st' = printed [format_exc w e1; format_exc w e2;
                      format_exc w e3; format_exc w e4] st4.
Proof.
  rewrite load_refines_try_in_order.
  assert (Hall : forall s, In s (strategies w mt wd name) ->
                           forall st0, (exists m st1, s st0 = (Ret (Some m), st1))
                                       \/ (exists e st1, s st0 = (Raise e, st1)))
    by (intros s Hin st0; eapply strategy_run_cases; eassumption).
  unfold strategies in *.
  destruct (Hall _ (or_introl eq_refl) st) as [(m & st1 & H1) | (e1 & st1 & H1)];
    rewrite try_in_order_cons, H1; cbv beta iota; [discriminate |].
  destruct (Hall _ (or_intror (or_introl eq_refl)) st1)
    as [(m & st2 & H2) | (e2 & st2 & H2)];
    rewrite try_in_order_cons, H2; cbv beta iota; [discriminate |].
  destruct (Hall _ (or_intror (or_intror (or_introl eq_refl))) st2)
    as [(m & st3 & H3) | (e3 & st3 & H3)];
    rewrite try_in_order_cons, H3; cbv beta iota; [discriminate |].
  destruct (Hall _ (or_intror (or_intror (or_intror (or_introl eq_refl)))) st3)
    as [(m & st4 & H4) | (e4 & st4 & H4)];
    rewrite try_in_order_cons, H4; cbv beta iota; [discriminate |].
  rewrite try_in_order_nil. intros [= <- <-].
  exists e1, st1, e2, st2, e3, st3, e4, st4. repeat split; assumption.
Qed.

(** C3. Whatever exception a strategy raises, [load] catches it: [load]
    itself raises only after all four strategies have been run, each from the
    state the failure before it left, so an earlier failure never keeps a
    later strategy from being tried.  When all four fail, one formatted
    traceback per strategy has been collected, and the four are printed, in
    the order of the attempts, before the final exception is raised. *)
Theorem load_collects_every_failure w mt wd name extra st :
  (forall e1 st1 e2 st2 e3 st3 e4 st4,
      __load_internal w mt wd name st = (Raise e1, st1) ->
      __load_diffusers w mt wd name st1 = (Raise e2, st2) ->
      __load_safetensors w mt wd name st2 = (Raise e3, st3) ->
      __load_ckpt w mt wd name st3 = (Raise e4, st4) ->
      load w mt wd name extra st
      = (Raise (final_error name),
         printed [format_exc w e1; format_exc w e2; format_exc w e3; format_exc w e4]
                 st4))
  /\ (forall ex st',
         load w mt wd name extra st = (Raise ex, st') ->
         exists e1 st1 e2 st2 e3 st3 e4 st4,
           __load_internal w mt wd name st = (Raise e1, st1)
           /\ __load_diffusers w mt wd name st1 = (Raise e2, st2)
           /\ __load_safetensors w mt wd name st2 = (Raise e3, st3)
           /\ __load_ckpt w mt wd name st3 = (Raise e4, st4)
           /\ ex = final_error name
           /\ st' = printed [format_exc w e1; format_exc w e2;
                             format_exc w e3; format_exc w e4] st4)
  /\ (forall before s after stacktraces st_k,
         strategies w mt wd name = before ++ s :: after ->
         fail_run w before st stacktraces st_k ->
         load w mt wd name extra st
         = try_in_order w (s :: after) stacktraces name st_k).
Proof.
  split; [| split].
  - intros e1 st1 e2 st2 e3 st3 e4 st4 H1 H2 H3 H4.
    rewrite load_refines_try_in_order. unfold strategies.
    rewrite try_in_order_cons, H1. cbv beta iota.
    rewrite try_in_order_cons, H2. cbv beta iota.
    rewrite try_in_order_cons, H3. cbv beta iota.
    rewrite try_in_order_cons, H4. cbv beta iota.
    rewrite try_in_order_nil. reflexivity.
  - intros ex st'. apply load_raise_inv.
  - intros before s after stacktraces st_k Hsplit Hfail.
    rewrite load_refines_try_in_order, Hsplit.
    rewrite (try_in_order_skips_failures _ _ _ _ _ _ Hfail). reflexivity.
Qed.

Lemma load_collects_every_failure_witness :
  load Demo.disk STABLE_DIFFUSION_15 Demo.float32
       (Some "models/missing.ckpt") None Demo.start
  = (Raise (Exception "could not load model: models/missing.ckpt"),
     snd (load Demo.disk STABLE_DIFFUSION_15 Demo.float32
               (Some "models/missing.ckpt") None Demo.start))
  /\ length (stdout (snd (load Demo.disk STABLE_DIFFUSION_15 Demo.float32
                               (Some "models/missing.ckpt") None Demo.start))) = 4.
Proof.
  split; [| vm_compute; reflexivity].
  etransitivity.
  - eapply (proj1 (load_collects_every_failure
                     Demo.disk STABLE_DIFFUSION_15 Demo.float32
                     (Some "models/missing.ckpt") None Demo.start));
      vm_compute; reflexivity.
  - vm_compute. reflexivity.
Defined.

(** ** C7: a strategy per checkpoint layout *)




(** ** C9: a returned model always carries a model spec *)

Lemma try_in_order_returns w name (P : StableDiffusionModel -> Prop) candidates :
  (forall s st m st',
      In s candidates -> s st = (Ret (Some m), st') -> P m) ->
  forall st collected model st',
    try_in_order w candidates collected name st = (Ret model, st') ->
    exists m, model = Some m /\ P m.
Proof.
  induction candidates as [| s rest IH]; intros HP st collected model st'.
  - rewrite try_in_order_nil. discriminate.
  - rewrite try_in_order_cons.
    destruct (s st) as [[[m | ] | e] st1] eqn:Hs.
    + intros [= <- <-]. exists m. split; [reflexivity |].
      eapply HP; [left; reflexivity | eassumption].
    + apply IH. intros s' st0 m st0' Hin. apply HP. right. exact Hin.
    + apply IH. intros s' st0 m st0' Hin. apply HP. right. exact Hin.
Qed.



(** ** C2 and C8: the final error, and [base_model_name = None] *)

Lemma load_internal_None w mt wd st :
  __load_internal w mt wd None st = (Raise TypeError, st).
Proof. reflexivity. Qed.

Lemma load_safetensors_None w mt wd st :
  __load_safetensors w mt wd None st = (Raise TypeError, st).
Proof. reflexivity. Qed.

Lemma load_ckpt_None w mt wd st :
  __load_ckpt w mt wd None st = (Raise TypeError, st).
Proof. reflexivity. Qed.

(** Without a default config file the diffusers strategy cannot finish:
    [open(None, "r")] is a [TypeError] at the latest. *)
Lemma load_diffusers_needs_default_yaml w mt wd name st :
  __default_yaml_name mt = None ->
  exists e st', __load_diffusers w mt wd name st = (Raise e, st').
Proof.
  intros Hnone.
  assert (H : post (__load_diffusers w mt wd name) st
                   (fun r _ => exists e, r = Raise e)).
  { unfold __load_diffusers. rewrite Hnone. wp; eauto. }
  unfold post in H. destruct (__load_diffusers w mt wd name st) as [r st'].
  simpl in H. destruct H as (e & ->). eauto.
Qed.

(** C2, at the input [base_model_name = None] on the demo disk: all four
    strategies fail, and what [load] raises is a [TypeError], not an
    [Exception] with the "could not load model: " message. *)
Theorem load_None_raises_TypeError :
  (exists stacktraces st4,
      fail_run Demo.disk
               (strategies Demo.disk STABLE_DIFFUSION_15 Demo.float32 None)
               Demo.start stacktraces st4
      /\ length stacktraces = 4)
  /\ fst (load Demo.disk STABLE_DIFFUSION_15 Demo.float32 None None Demo.start)
     = Raise TypeError
  /\ forall msg,
       fst (load Demo.disk STABLE_DIFFUSION_15 Demo.float32 None None Demo.start)
       <> Raise (Exception msg).
Proof.
  split; [| split].
  - eexists. eexists. split.
    + unfold strategies.
      eapply fail_run_raise; [apply load_internal_None |].
      eapply fail_run_raise; [vm_compute; reflexivity |].
      eapply fail_run_raise; [apply load_safetensors_None |].
      eapply fail_run_raise; [apply load_ckpt_None |].
      apply fail_run_nil.
    + reflexivity.
  - vm_compute. reflexivity.
  - intros msg. vm_compute. discriminate.
Qed.

(** With [base_model_name = None] the result of [load] is decided by the
    diffusers strategy alone: the other three raise a [TypeError] before any
    library call. *)
Lemma load_None_cases w mt wd extra st :
  __load_internal w mt wd None st = (Raise TypeError, st)
  /\ (forall st0, __load_safetensors w mt wd None st0 = (Raise TypeError, st0))
  /\ (forall st0, __load_ckpt w mt wd None st0 = (Raise TypeError, st0))
  /\ (forall r st',
         load w mt wd None extra st = (r, st') ->
         match r with
         | Ret model =>
             exists m, model = Some m
                       /\ __load_diffusers w mt wd None st = (Ret (Some m), st')
         | Raise ex =>
             ex = TypeError
             /\ exists e2 st2,
                 __load_diffusers w mt wd None st = (Raise e2, st2)
                 /\ st' = printed [format_exc w TypeError; format_exc w e2;
                                   format_exc w TypeError; format_exc w TypeError]
                                  st2
         end)
  /\ (__default_yaml_name mt = None ->
      exists st', load w mt wd None extra st = (Raise TypeError, st'))
  /\ (forall name st0 msg st',
         load w mt wd name extra st0 = (Raise (Exception msg), st') ->
         exists s, name = Some s /\ msg = ("could not load model: " ++ s)%string).
Proof.
  assert (Hload : forall r st',
             load w mt wd None extra st = (r, st') ->
             match r with
             | Ret model =>
                 exists m, model = Some m
                           /\ __load_diffusers w mt wd None st = (Ret (Some m), st')
             | Raise ex =>
                 ex = TypeError
                 /\ exists e2 st2,
                     __load_diffusers w mt wd None st = (Raise e2, st2)
                     /\ st' = printed [format_exc w TypeError; format_exc w e2;
                                       format_exc w TypeError; format_exc w TypeError]
                                      st2
             end).
  { intros r st'. rewrite load_refines_try_in_order. unfold strategies.
    rewrite try_in_order_cons, load_internal_None. cbv beta iota.
    rewrite try_in_order_cons.
    pose proof (load_diffusers_returns_model w mt wd None st) as Hd.
    unfold post in Hd.
    destruct (__load_diffusers w mt wd None st) as [[[m | ] | e2] st2];
      simpl in Hd; [| contradiction |].
    - intros [= <- <-]. exists m. split; reflexivity.
    - rewrite try_in_order_cons, load_safetensors_None. cbv beta iota.
      rewrite try_in_order_cons, load_ckpt_None. cbv beta iota.
      rewrite try_in_order_nil. intros [= <- <-].
      split; [reflexivity |]. exists e2, st2. split; reflexivity. }
  repeat split.
  - exact Hload.
  - intros Hnone.
    destruct (load_diffusers_needs_default_yaml w mt wd None st Hnone)
      as (e2 & st2 & Hd).
    destruct (load w mt wd None extra st) as [r st'] eqn:Hrun.
    specialize (Hload r st' eq_refl). destruct r as [model | ex].
    + destruct Hload as (m & _ & Hm). rewrite Hd in Hm. discriminate.
    + destruct Hload as (-> & _). exists st'. reflexivity.
  - intros name st0 msg st' Hrun.
    destruct (load_raise_inv _ _ _ _ _ _ _ _ Hrun)
      as (e1 & st1 & e2 & st2 & e3 & st3 & e4 & st4 & _ & _ & _ & _ & Hex & _).
    destruct name as [s | ]; simpl in Hex; [| discriminate].
    injection Hex as ->. exists s. split; reflexivity.
Qed.

Lemma load_diffusers_None_raises w mt wd st :
  text_encoder_rejects_None w ->
  exists e st', __load_diffusers w mt wd None st = (Raise e, st').
Proof.
  intros Hlib.
  assert (H : post (__load_diffusers w mt wd None) st
                   (fun r _ => exists e, r = Raise e)).
  { unfold __load_diffusers. wp; eauto;
      exfalso;
      match goal with
      | H : respond _ _ ?h (CLIPTextModel_from_pretrained None ?sub ?d) = Ret _ |- _ =>
          destruct (Hlib h sub d) as (e' & He'); rewrite He' in H; discriminate H
      end. }
  unfold post in H. destruct (__load_diffusers w mt wd None st) as [r st'].
  simpl in H. destruct H as (e & ->). eauto.
Qed.

(** C8. Although [load] accepts [base_model_name = None], such a call never
    returns a model.  Every strategy fails: [__load_internal],
    [__load_safetensors] and [__load_ckpt] with the [TypeError] of
    [os.path.join] and [os.path.splitext] on [None], and [__load_diffusers]
    because [CLIPTextModel.from_pretrained] rejects [None] (the one fact about
    the libraries that is assumed).  The four tracebacks are printed, and the
    construction of the final error, ["could not load model: " + None], itself
    raises a [TypeError] in place of the intended [Exception].  The documented
    message is only produced when [base_model_name] is a string: whenever
    [load] raises [Exception msg], [base_model_name] is a string [s] and [msg]
    is "could not load model: " followed by [s], and for a string [s] that is
    what [load] raises once the four strategies have raised. *)
Theorem load_None_fails_with_TypeError w mt wd extra st :
  text_encoder_rejects_None w ->
  (exists e2 st2,
      __load_internal w mt wd None st = (Raise TypeError, st)
      /\ __load_diffusers w mt wd None st = (Raise e2, st2)
      /\ __load_safetensors w mt wd None st2 = (Raise TypeError, st2)
      /\ __load_ckpt w mt wd None st2 = (Raise TypeError, st2)
      /\ load w mt wd None extra st
         = (Raise TypeError,
            printed [format_exc w TypeError; format_exc w e2;
                     format_exc w TypeError; format_exc w TypeError] st2))
  /\ (forall model st', load w mt wd None extra st <> (Ret model, st'))
  /\ (forall msg st', load w mt wd None extra st <> (Raise (Exception msg), st'))
  /\ (forall name st0 msg st',
         load w mt wd name extra st0 = (Raise (Exception msg), st') ->
         exists s, name = Some s /\ msg = ("could not load model: " ++ s)%string)
  /\ (forall s st0 e1 st1 e2 st2 e3 st3 e4 st4,
         __load_internal w mt wd (Some s) st0 = (Raise e1, st1) ->
         __load_diffusers w mt wd (Some s) st1 = (Raise e2, st2) ->
         __load_safetensors w mt wd (Some s) st2 = (Raise e3, st3) ->
         __load_ckpt w mt wd (Some s) st3 = (Raise e4, st4) ->
         fst (load w mt wd (Some s) extra st0)
         = Raise (Exception ("could not load model: " ++ s)%string)).
Proof.
  intros Hlib.
  destruct (load_diffusers_None_raises w mt wd st Hlib) as (e2 & st2 & Hd).
  destruct (load_None_cases w mt wd extra st)
    as (Hint & Hst & Hckpt & Hload & _ & Hmsg).
  assert (Hrun : load w mt wd None extra st
                 = (Raise TypeError,
                    printed [format_exc w TypeError; format_exc w e2;
                             format_exc w TypeError; format_exc w TypeError] st2)).
  { destruct (load w mt wd None extra st) as [r st'] eqn:Hrun.
    specialize (Hload r st' eq_refl). destruct r as [model | ex].
    - destruct Hload as (m & _ & Hm). rewrite Hd in Hm. discriminate.
    - destruct Hload as (-> & e2' & st2' & Hd' & ->).
      rewrite Hd in Hd'. injection Hd' as <- <-. reflexivity. }
  split; [| split; [| split; [| split]]].
  - exists e2, st2. repeat split; auto.
  - intros model st'. rewrite Hrun. discriminate.
  - intros msg st'. rewrite Hrun. discriminate.
  - exact Hmsg.
  - intros s st0 e1 st1 e2' st2' e3 st3 e4 st4 H1 H2 H3 H4.
    rewrite load_refines_try_in_order. unfold strategies.
    rewrite try_in_order_cons, H1. cbv beta iota.
    rewrite try_in_order_cons, H2. cbv beta iota.
    rewrite try_in_order_cons, H3. cbv beta iota.
    rewrite try_in_order_cons, H4. cbv beta iota.
    rewrite try_in_order_nil. reflexivity.
Qed.

Lemma load_None_fails_with_TypeError_witness :
  fst (load Demo.disk_with_None_dir STABLE_DIFFUSION_15 Demo.float32 None None
            Demo.start) = Raise TypeError
  /\ exists e2 st2,
      __load_diffusers Demo.disk_with_None_dir STABLE_DIFFUSION_15 Demo.float32 None
                       Demo.start = (Raise e2, st2).
Proof.
  destruct (load_None_fails_with_TypeError
              Demo.disk_with_None_dir STABLE_DIFFUSION_15 Demo.float32 None Demo.start)
    as ((e2 & st2 & _ & Hd & _ & _ & Hrun) & _).
  - intros h subfolder dtype. exists (LibraryError "AttributeError"). reflexivity.
  - split; [rewrite Hrun; reflexivity | eauto].
Defined.

(** ** C5: the fallback chain for the original config file *)

Ltac extends_done := cbn [calls called app]; repeat constructor.

(** The steps of symbolic execution that split no case. *)
Ltac wp_det_step :=
  cbv beta iota;
  lazymatch goal with
  | |- post (bind _ _) _ _ => apply post_bind
  | |- post (ret _) _ _ => apply post_ret
  | |- post (raise _) _ _ => apply post_raise
  | |- post (lift (Ret _)) _ _ => apply post_lift
  | |- post (lift (Raise _)) _ _ => apply post_lift
  | |- post (try_except _ _) _ _ => apply post_try_except
  | |- post (try_except_FileNotFoundError _ _) _ _ =>
      unfold try_except_FileNotFoundError
  | |- post (py_os_path_splitext _ (Some _)) _ _ => unfold py_os_path_splitext
  | |- post (py_os_path_join _ (Some _) _) _ _ => unfold py_os_path_join
  | |- post (py_open _ (Some _) _) _ _ => unfold py_open
  | |- post (py_setattr (Some _) _) _ _ => unfold py_setattr
  end.

Ltac wp_det := repeat wp_det_step.

(** A library call whose answer is known from [H]. *)
Ltac wp_call H :=
  wp_det; apply post_call; cbn [calls called] in H |- *; rewrite H; cbv beta iota.

Lemma load_ckpt_converts_with_chain w mt wd s st :
  converts_with_chain w mt s (__load_ckpt w mt wd (Some s)) None st.
Proof.
  intros yaml_exists yml_exists Hyaml Hyml.
  change (post (__load_ckpt w mt wd (Some s)) st
               (fun _ st' =>
                  extends
                    (Ev (download_from_original_stable_diffusion_ckpt
                           (Some s) (config_file_chain w mt s yaml_exists yml_exists)
                           false None)
                       :: sidecar_probes w s yaml_exists ++ calls st)
                    (calls st'))).
  unfold __load_ckpt, config_file_chain, sidecar_probes, sidecar in *.
  wp_call Hyaml. wp_det. destruct yaml_exists; cbn [negb].
  - wp; extends_done.
  - specialize (Hyml eq_refl). wp_call Hyml.
    destruct yml_exists; cbn [negb]; wp; extends_done.
Qed.

Lemma load_safetensors_converts_with_chain w mt wd s st :
  converts_with_chain w mt s (__load_safetensors w mt wd (Some s)) (Some true) st.
Proof.
  intros yaml_exists yml_exists Hyaml Hyml.
  change (post (__load_safetensors w mt wd (Some s)) st
               (fun _ st' =>
                  extends
                    (Ev (download_from_original_stable_diffusion_ckpt
                           (Some s) (config_file_chain w mt s yaml_exists yml_exists)
                           false (Some true))
                       :: sidecar_probes w s yaml_exists ++ calls st)
                    (calls st'))).
  unfold __load_safetensors, config_file_chain, sidecar_probes, sidecar in *.
  wp_call Hyaml. wp_det. destruct yaml_exists; cbn [negb].
  - wp; extends_done.
  - specialize (Hyml eq_refl). wp_call Hyml.
    destruct yml_exists; cbn [negb]; wp; extends_done.
Qed.

Ltac reads_config_tail Hdownload Hconstruct :=
  cbn [app] in *; wp_call Hdownload; wp_call Hconstruct; wp; extends_done.

Lemma load_ckpt_reads_config_of_chain w mt wd s st :
  reads_config_of_chain w mt s (__load_ckpt w mt wd (Some s)) None st.
Proof.
  intros yaml_exists yml_exists pipeline scheduler Hyaml Hyml
         chosen h download construct Hdownload Hconstruct.
  change (post (__load_ckpt w mt wd (Some s)) st
               (fun r st' =>
                  match chosen with
                  | Some config =>
                      extends (Ev (builtin_open config "r")
                                  :: Ev construct :: Ev download :: h)
                              (calls st')
                  | None =>
                      r = Raise TypeError
                      /\ st' = {| calls := Ev construct :: Ev download :: h;
                                  stdout := stdout st |}
                  end)).
  subst chosen h download construct.
  unfold __load_ckpt, config_file_chain, sidecar_probes, sidecar in *.
  wp_call Hyaml. wp_det. destruct yaml_exists; cbn [negb].
  - reads_config_tail Hdownload Hconstruct.
  - specialize (Hyml eq_refl). wp_call Hyml.
    destruct yml_exists; cbn [negb].
    + reads_config_tail Hdownload Hconstruct.
    + destruct (__default_yaml_name mt) as [config | ].
      * reads_config_tail Hdownload Hconstruct.
      * cbn [app] in *. wp_call Hdownload. wp_call Hconstruct. wp.
        split; reflexivity.
Qed.

Lemma load_safetensors_reads_config_of_chain w mt wd s st :
  reads_config_of_chain w mt s (__load_safetensors w mt wd (Some s)) (Some true) st.
Proof.
  intros yaml_exists yml_exists pipeline scheduler Hyaml Hyml
         chosen h download construct Hdownload Hconstruct.
  change (post (__load_safetensors w mt wd (Some s)) st
               (fun r st' =>
                  match chosen with
                  | Some config =>
                      extends (Ev (builtin_open config "r")
                                  :: Ev construct :: Ev download :: h)
                              (calls st')
                  | None =>
                      r = Raise TypeError
                      /\ st' = {| calls := Ev construct :: Ev download :: h;
                                  stdout := stdout st |}
                  end)).
  subst chosen h download construct.
  unfold __load_safetensors, config_file_chain, sidecar_probes, sidecar in *.
  wp_call Hyaml. wp_det. destruct yaml_exists; cbn [negb].
  - reads_config_tail Hdownload Hconstruct.
  - specialize (Hyml eq_refl). wp_call Hyml.
    destruct yml_exists; cbn [negb].
    + reads_config_tail Hdownload Hconstruct.
    + destruct (__default_yaml_name mt) as [config | ].
      * reads_config_tail Hdownload Hconstruct.
      * cbn [app] in *. wp_call Hdownload. wp_call Hconstruct. wp.
        split; reflexivity.
Qed.

(** C5. In [__load_ckpt] and in [__load_safetensors] alike, run on the
    checkpoint [s]: the strategy asks whether the sidecar [.yaml] file (the
    checkpoint's name with its extension replaced) exists and, only if it
    does not, whether the sidecar [.yml] file exists; the
    [original_config_file] it then hands to the converter is the [.yaml]
    sidecar if that exists, else the [.yml] sidecar if that exists, else
    [__default_yaml_name model_type].  The same file is the one opened
    afterwards to read [sd_config]. *)
Theorem config_file_fallback_chain w mt wd s st :
  (forall yaml_exists yml_exists,
      config_file_chain w mt s yaml_exists yml_exists
      = if yaml_exists
        then Some (fst (os_path_splitext w s) ++ ".yaml")%string
        else if yml_exists
             then Some (fst (os_path_splitext w s) ++ ".yml")%string
             else __default_yaml_name mt)
  /\ converts_with_chain w mt s (__load_ckpt w mt wd (Some s)) None st
  /\ converts_with_chain w mt s (__load_safetensors w mt wd (Some s)) (Some true) st
  /\ reads_config_of_chain w mt s (__load_ckpt w mt wd (Some s)) None st
  /\ reads_config_of_chain w mt s (__load_safetensors w mt wd (Some s)) (Some true) st.
Proof.
  split; [reflexivity | repeat split].
  - apply load_ckpt_converts_with_chain.
  - apply load_safetensors_converts_with_chain.
  - apply load_ckpt_reads_config_of_chain.
  - apply load_safetensors_reads_config_of_chain.
Qed.

Lemma config_file_fallback_chain_witness :
  extends
    [ Ev (download_from_original_stable_diffusion_ckpt
            (Some "models/old.ckpt"%string) (Some "models/old.yml"%string) false None);
      Ev (os_path_exists "models/old.yml");
      Ev (os_path_exists "models/old.yaml") ]
    (calls (snd (__load_ckpt Demo.disk STABLE_DIFFUSION_15 Demo.float32
                             (Some "models/old.ckpt"%string) Demo.start)))
  /\ extends
       [ Ev (download_from_original_stable_diffusion_ckpt
               (Some "models/plain.safetensors"%string)
               (Some "resources/diffusers_model_config/v2-inference-v.yaml"%string)
               false (Some true));
         Ev (os_path_exists "models/plain.yml");
         Ev (os_path_exists "models/plain.yaml") ]
       (calls (snd (__load_safetensors Demo.disk STABLE_DIFFUSION_21 Demo.float32
                                       (Some "models/plain.safetensors"%string)
                                       Demo.start))).
Proof.
  split.
  - apply (proj1 (proj2 (config_file_fallback_chain
                           Demo.disk STABLE_DIFFUSION_15 Demo.float32
                           "models/old.ckpt" Demo.start)) false true).
    + reflexivity.
    + intros _. reflexivity.
  - apply (proj1 (proj2 (proj2 (config_file_fallback_chain
                           Demo.disk STABLE_DIFFUSION_21 Demo.float32
                           "models/plain.safetensors" Demo.start))) false false).
    + reflexivity.
    + intros _. reflexivity.
Defined.








(** ** C10: the optimizer and EMA state files are optional *)

Lemma post_bind_run {A B : Type} (c : M A) (k : A -> M B) st a st1
    (Q : outcome B -> State -> Prop) :
  c st = (Ret a, st1) -> post (k a) st1 Q -> post (bind c k) st Q.
Proof. unfold post, bind. intros ->. exact (fun H => H). Qed.

Lemma post_eq {A : Type} (c : M A) st r st' :
  post c st (fun r0 st0 => r0 = r /\ st0 = st') -> c st = (r, st').
Proof.
  unfold post. destruct (c st) as [r0 st0]. simpl. intros [-> ->]. reflexivity.
Qed.

(** C10. In [__load_internal], once [meta.json] is read and the base model
    [m0] is loaded: an exception of [torch.load] on [optimizer/optimizer.pt],
    or on [ema/ema.pt], that is not a [FileNotFoundError] leaves the strategy
    at once, as its own exception.  A [FileNotFoundError] is caught: after
    one from the optimizer file the strategy goes on to load the EMA file,
    and after one from the EMA file it goes on to open the default config
    file (where, with no default config file, it raises the [TypeError] of
    [open(None)], not the [FileNotFoundError]).  In the model the strategy
    finally returns, each of the two attributes holds the loaded state dict,
    or is left as the base model [m0] had it when the file was missing. *)
Theorem state_dict_files_are_optional w mt wd s st tp st1 m0 st2 :
  read_train_progress w (Some s) st = (Ret tp, st1) ->
  __load_diffusers w mt wd (Some s) st1 = (Ret (Some m0), st2) ->
  let st3 := called (optimizer_load w s) st2 in
  let st4 := called (ema_load w s) st3 in
  let optimizer := respond w pyobj (calls st2) (optimizer_load w s) in
  let ema := respond w pyobj (calls st3) (ema_load w s) in
  (forall e,
      optimizer = Raise e -> is_FileNotFoundError e = false ->
      __load_internal w mt wd (Some s) st = (Raise e, st3))
  /\ (forall e,
         tolerated optimizer ->
         ema = Raise e -> is_FileNotFoundError e = false ->
         __load_internal w mt wd (Some s) st = (Raise e, st4))
  /\ (tolerated optimizer ->
      extends (calls st4) (calls (snd (__load_internal w mt wd (Some s) st))))
  /\ (tolerated optimizer -> tolerated ema ->
      match __default_yaml_name mt with
      | Some config =>
          extends (Ev (builtin_open config "r") :: calls st4)
                  (calls (snd (__load_internal w mt wd (Some s) st)))
      | None =>
          fst (__load_internal w mt wd (Some s) st) = Raise TypeError
          /\ snd (__load_internal w mt wd (Some s) st) = st4
      end)
  /\ (forall model st',
         __load_internal w mt wd (Some s) st = (Ret model, st') ->
         exists m,
           model = Some m
           /\ tolerated optimizer /\ tolerated ema
           /\ optimizer_state_dict m = loaded_or (optimizer_state_dict m0) optimizer
           /\ ema_state_dict m = loaded_or (ema_state_dict m0) ema).
Proof.
  intros Hmeta Hbase st3 st4 optimizer ema.
  subst st3 st4 optimizer ema. unfold optimizer_load, ema_load.
  split; [| split; [| split; [| split]]].
  - intros e Hopt Hnot. apply post_eq. unfold __load_internal.
    eapply post_bind_run; [exact Hmeta |].
    eapply post_bind_run; [exact Hbase |].
    wp_call Hopt. wp_det. rewrite Hnot. wp_det. split; reflexivity.
  - intros e Htol Hema Hnot. apply post_eq. unfold __load_internal.
    eapply post_bind_run; [exact Hmeta |].
    eapply post_bind_run; [exact Hbase |].
    wp_det. apply post_call. cbn [calls called].
    destruct (respond w pyobj (calls st2)
                      (torch_load (os_path_join w s ["optimizer"; "optimizer.pt"]%string)))
      as [v | e0]; cbv beta iota; simpl in Htol.
    + wp_call Hema. wp_det. rewrite Hnot. wp_det. split; reflexivity.
    + wp_det. rewrite Htol. wp_call Hema. wp_det. rewrite Hnot. wp_det.
      split; reflexivity.
  - intros Htol.
    change (post (__load_internal w mt wd (Some s)) st
                 (fun _ st' =>
                    extends
                      (calls (called (torch_load (os_path_join w s ["ema"; "ema.pt"]%string))
                                (called (torch_load
                                           (os_path_join w s
                                              ["optimizer"; "optimizer.pt"]%string))
                                        st2)))
                      (calls st'))).
    unfold __load_internal.
    eapply post_bind_run; [exact Hmeta |].
    eapply post_bind_run; [exact Hbase |].
    wp_det. apply post_call. cbn [calls called].
    destruct (respond w pyobj (calls st2)
                      (torch_load (os_path_join w s ["optimizer"; "optimizer.pt"]%string)))
      as [v | e0]; cbv beta iota; simpl in Htol.
    + wp; extends_done.
    + wp_det. rewrite Htol. wp; extends_done.
  - intros Htol Htol_ema.
    change (post (__load_internal w mt wd (Some s)) st
                 (fun r st' =>
                    match __default_yaml_name mt with
                    | Some config =>
                        extends
                          (Ev (builtin_open config "r")
                              :: calls (called (torch_load
                                                  (os_path_join w s
                                                     ["ema"; "ema.pt"]%string))
                                          (called (torch_load
                                                     (os_path_join w s
                                                        ["optimizer";
                                                         "optimizer.pt"]%string))
                                                  st2)))
                          (calls st')
                    | None =>
                        r = Raise TypeError
                        /\ st' = called (torch_load
                                          (os_path_join w s ["ema"; "ema.pt"]%string))
                                       (called (torch_load
                                                  (os_path_join w s
                                                     ["optimizer";
                                                      "optimizer.pt"]%string))
                                               st2)
                    end)).
    unfold __load_internal.
    eapply post_bind_run; [exact Hmeta |].
    eapply post_bind_run; [exact Hbase |].
    wp_det. apply post_call. cbn [calls called] in *.
    destruct (respond w pyobj (calls st2)
                      (torch_load (os_path_join w s ["optimizer"; "optimizer.pt"]%string)))
      as [v | e0]; cbv beta iota; simpl in Htol;
      [| wp_det; rewrite Htol ];
      wp_det; apply post_call; cbn [calls called] in *;
      (destruct (respond w pyobj
                         (Ev (torch_load
                                (os_path_join w s ["optimizer"; "optimizer.pt"]%string))
                             :: calls st2)
                         (torch_load (os_path_join w s ["ema"; "ema.pt"]%string)))
        as [v' | e0']; cbv beta iota; simpl in Htol_ema;
       [| wp_det; rewrite Htol_ema ]);
      wp_det; destruct (__default_yaml_name mt) as [config | ];
      first [ wp; extends_done | wp; split; reflexivity ].
  - intros model st' Hrun.
    refine (post_run _ _ _ _
              (fun r _ =>
                 r = Ret model ->
                 exists m,
                   model = Some m
                   /\ tolerated _ /\ tolerated _
                   /\ optimizer_state_dict m = loaded_or _ _
                   /\ ema_state_dict m = loaded_or _ _)
              Hrun _ eq_refl).
    unfold __load_internal.
    eapply post_bind_run; [exact Hmeta |].
    eapply post_bind_run; [exact Hbase |].
    wp; try discriminate; intros [= <-]; cbn [calls called] in *;
      eexists; (split; [reflexivity |]);
      repeat match goal with
             | H : respond _ _ _ _ = _ |- _ => rewrite H
             end;
      simpl; auto 10.
Qed.

Lemma state_dict_files_are_optional_witness :
  fst (__load_internal Demo.disk STABLE_DIFFUSION_15 Demo.float32
                       (Some "runs/broken"%string) Demo.start)
  = Raise (LibraryError "UnpicklingError")
  /\ exists m,
      returned (__load_internal Demo.disk STABLE_DIFFUSION_15 Demo.float32
                                (Some "runs/backup"%string) Demo.start) = Some m
      /\ optimizer_state_dict m = None
      /\ ema_state_dict m = Some (Obj "runs/backup/ema/ema.pt").
Proof.
  split.
  - edestruct (state_dict_files_are_optional
                 Demo.disk STABLE_DIFFUSION_15 Demo.float32
                 "runs/broken" Demo.start) as (Hraise & _).
    + vm_compute. reflexivity.
    + vm_compute. reflexivity.
    + rewrite (Hraise (LibraryError "UnpicklingError")).
      * reflexivity.
      * vm_compute. reflexivity.
      * reflexivity.
  - edestruct (state_dict_files_are_optional
                 Demo.disk STABLE_DIFFUSION_15 Demo.float32
                 "runs/backup" Demo.start) as (_ & _ & _ & _ & Hret).
    + vm_compute. reflexivity.
    + vm_compute. reflexivity.
    + destruct (Hret (returned (__load_internal Demo.disk STABLE_DIFFUSION_15
                                  Demo.float32 (Some "runs/backup"%string) Demo.start))
                     (snd (__load_internal Demo.disk STABLE_DIFFUSION_15
                             Demo.float32 (Some "runs/backup"%string) Demo.start)))
        as (m & Hm & _ & _ & Hopt & Hema).
      * vm_compute. reflexivity.
      * exists m. split; [exact Hm | split].
        -- rewrite Hopt. vm_compute. reflexivity.
        -- rewrite Hema. vm_compute. reflexivity.
Defined.

(** * Further properties of the loader *)

(** ** Predicates used in the further statements *)

(** [answered_since w h0 c r h]: in the history [h], after the point [h0],
    the library call [c] was made and the world answered [r]. *)
Inductive answered_since (w : World) (h0 : list event) {R : Type}
    (c : libcall R) (r : outcome R) : list event -> Prop :=
| answered_here : forall h,
    extends h0 h -> respond w R h c = r -> answered_since w h0 c r (Ev c :: h)
| answered_before : forall ev h,
    answered_since w h0 c r h -> answered_since w h0 c r (ev :: h).

(** [m] and [m0] have the same model type and the same components. *)
Definition same_components (m m0 : StableDiffusionModel) : Prop :=
  model_type m = model_type m0
  /\ tokenizer m = tokenizer m0
  /\ noise_scheduler m = noise_scheduler m0
  /\ text_encoder m = text_encoder m0
  /\ vae m = vae m0
  /\ unet m = unet m0
  /\ image_depth_processor m = image_depth_processor m0
  /\ depth_estimator m = depth_estimator m0.

(** The loader has assigned no training state to [m]: the three attributes
    are as the [StableDiffusionModel] constructor left them. *)
Definition untouched_training_state (w : World) (m : StableDiffusionModel) : Prop :=
  train_progress m = new_model_train_progress w
  /\ optimizer_state_dict m = new_model_optimizer_state_dict w
  /\ ema_state_dict m = new_model_ema_state_dict w.

(** The four subscript chains of lines 55 to 58 on the decoded [meta.json]. *)
Definition train_progress_of (meta : pyval) : outcome TrainProgress :=
  match subscript meta "train_progress" with
  | Raise e => Raise e
  | Ret tp =>
      match subscript tp "epoch" with
      | Raise e => Raise e
      | Ret v_epoch =>
          match subscript tp "epoch_step" with
          | Raise e => Raise e
          | Ret v_epoch_step =>
              match subscript tp "epoch_sample" with
              | Raise e => Raise e
              | Ret v_epoch_sample =>
                  match subscript tp "global_step" with
                  | Raise e => Raise e
                  | Ret v_global_step =>
                      Ret {| epoch := v_epoch; epoch_step := v_epoch_step;
                             epoch_sample := v_epoch_sample;
                             global_step := v_global_step |}
                  end
              end
          end
      end
  end.


(** What [__load_ckpt] and [__load_safetensors] return: a model of the type
    asked for, without depth components, and with no training state
    assigned. *)
Definition plain_checkpoint_model (w : World) (mt : ModelType)
    (r : outcome (option StableDiffusionModel)) : Prop :=
  forall m, r = Ret (Some m) ->
            model_type m = mt /\ untouched_training_state w m
            /\ image_depth_processor m = None /\ depth_estimator m = None.

(** A sidecar config file was found during the run from [st] to [st']. *)
Definition found_sidecar (w : World) (name : option string) (st st' : State) : Prop :=
  exists s ext,
    name = Some s
    /\ (ext = ".yaml"%string \/ ext = ".yml"%string)
    /\ answered_since w (calls st) (os_path_exists (sidecar w s ext)) (Ret true)
                      (calls st').

(** The run from [st] ended in [st'] with the exception [e] that its last
    library call raised. *)
Definition raised_by_last_call (w : World) (st : State) (e : exn) (st' : State) : Prop :=
  exists (R : Type) (c : libcall R) (h : list event),
    calls st' = Ev c :: h /\ extends (calls st) h /\ respond w R h c = Raise e.

Ltac find_answer :=
  solve [ eapply answered_here; [extends_done | eassumption]
        | apply answered_before; find_answer ].

(** ** The strategies print nothing *)







(** How a run of [try_in_order] ends: with the first candidate that returns a
    model, after the candidates before it failed, or with every candidate
    failed. *)
Lemma try_in_order_cases w name candidates :
  forall st collected,
    (exists before s after stacktraces st_k m st',
        candidates = before ++ s :: after
        /\ fail_run w before st stacktraces st_k
        /\ s st_k = (Ret (Some m), st')
        /\ try_in_order w candidates collected name st = (Ret (Some m), st'))
    \/ (exists stacktraces st_k,
           fail_run w candidates st stacktraces st_k
           /\ try_in_order w candidates collected name st
              = (Raise (final_error name), printed (collected ++ stacktraces) st_k)).
Proof.
  induction candidates as [| s rest IH]; intros st collected.
  - right. exists [], st. split; [constructor |].
    rewrite try_in_order_nil, app_nil_r. reflexivity.
  - rewrite try_in_order_cons.
    destruct (s st) as [[[m | ] | e] st1] eqn:Hs.
    + left. exists [], s, rest, [], st, m, st1.
      repeat split; [constructor | exact Hs].
    + destruct (IH st1 collected)
        as [(before & s' & after & traces & st_k & m & st' & -> & Hfail & Hs' & Hrun)
           | (traces & st_k & Hfail & Hrun)].
      * left. exists (s :: before), s', after, traces, st_k, m, st'.
        repeat split; try assumption. eapply fail_run_none; eassumption.
      * right. exists traces, st_k. split; [| exact Hrun].
        eapply fail_run_none; eassumption.
    + destruct (IH st1 (collected ++ [format_exc w e]))
        as [(before & s' & after & traces & st_k & m & st' & -> & Hfail & Hs' & Hrun)
           | (traces & st_k & Hfail & Hrun)].
      * left. exists (s :: before), s', after, (format_exc w e :: traces), st_k, m, st'.
        repeat split; try assumption. eapply fail_run_raise; eassumption.
      * right. exists (format_exc w e :: traces), st_k. split.
        -- eapply fail_run_raise; eassumption.
        -- rewrite Hrun, <- app_assoc. reflexivity.
Qed.



(** ** What the returned model is made of *)

Lemma load_ckpt_plain w mt wd name st :
  post (__load_ckpt w mt wd name) st (fun r _ => plain_checkpoint_model w mt r).
Proof.
  unfold __load_ckpt, plain_checkpoint_model, untouched_training_state.
  wp; try discriminate; intros m [= <-]; repeat split.
Qed.

Lemma load_safetensors_plain w mt wd name st :
  post (__load_safetensors w mt wd name) st (fun r _ => plain_checkpoint_model w mt r).
Proof.
  unfold __load_safetensors, plain_checkpoint_model, untouched_training_state.
  wp; try discriminate; intros m [= <-]; repeat split.
Qed.

Lemma load_diffusers_untouched w mt wd name st :
  post (__load_diffusers w mt wd name) st
       (fun r _ => forall m, r = Ret (Some m) -> model_type m = mt /\ untouched_training_state w m).
Proof.
  unfold __load_diffusers, untouched_training_state.
  wp; try discriminate; intros m [= <-]; repeat split.
Qed.

(** X2. A model that [__load_internal] returns is the base model that
    [__load_diffusers] loaded right after [meta.json] was read, with the same
    model type, tokenizer, scheduler, text encoder, VAE, UNet and depth
    components, and with [train_progress] set to what was read from
    [meta.json]. *)
Theorem load_internal_extends_base_model w mt wd name st m st' :
  __load_internal w mt wd name st = (Ret (Some m), st') ->
  exists tp st1 m0 st2,
    read_train_progress w name st = (Ret tp, st1)
    /\ __load_diffusers w mt wd name st1 = (Ret (Some m0), st2)
    /\ same_components m m0
    /\ model_type m = mt
    /\ train_progress m = Some tp
    /\ extends (calls st2) (calls st').
Proof.
  intros Hrun.
  refine (post_run _ _ _ _
            (fun r st' =>
               r = Ret (Some m) ->
               exists tp st1 m0 st2,
                 read_train_progress w name st = (Ret tp, st1)
                 /\ __load_diffusers w mt wd name st1 = (Ret (Some m0), st2)
                 /\ same_components m m0
                 /\ model_type m = mt
                 /\ train_progress m = Some tp
                 /\ extends (calls st2) (calls st'))
            Hrun _ eq_refl).
  unfold __load_internal. apply post_bind.
  apply post_intro. intros r1 st1 Hmeta.
  destruct r1 as [tp | e]; [| discriminate].
  apply post_bind. apply post_intro. intros r2 st2 Hbase.
  pose proof (post_run _ _ _ _ _ Hbase (load_diffusers_untouched _ _ _ _ _)) as Hmt.
  cbv beta in Hmt.
  destruct r2 as [[m0 | ] | e]; [| | discriminate].
  - destruct (Hmt m0 eq_refl) as [Hmt0 _].
    wp; try discriminate; intros [= <-];
      exists tp, st1, m0, st2; unfold same_components; simpl;
      repeat split; try assumption; extends_done.
  - wp; discriminate.
Qed.

Lemma load_internal_extends_base_model_witness :
  exists m m0,
    returned (__load_internal Demo.disk STABLE_DIFFUSION_15 Demo.float32
                              (Some "runs/backup"%string) Demo.start) = Some m
    /\ same_components m m0
    /\ train_progress m
       = Some {| epoch := PInt 3; epoch_step := PInt 120;
                 epoch_sample := PInt 480; global_step := PInt 1320 |}.
Proof.
  pose (run := __load_internal Demo.disk STABLE_DIFFUSION_15 Demo.float32
                               (Some "runs/backup"%string) Demo.start).
  assert (Hm : exists m, returned run = Some m) by (eexists; vm_compute; reflexivity).
  destruct Hm as (m & Hm).
  destruct (load_internal_extends_base_model
              Demo.disk STABLE_DIFFUSION_15 Demo.float32
              (Some "runs/backup"%string) Demo.start m (snd run))
    as (tp & st1 & m0 & st2 & Hmeta & _ & Hsame & _ & Htp & _).
  - rewrite <- Hm. vm_compute. reflexivity.
  - exists m, m0. split; [exact Hm | split; [exact Hsame |]].
    rewrite Htp. vm_compute in Hmeta. injection Hmeta as <- _. reflexivity.
Defined.

Lemma load_internal_train_progress w mt wd name st :
  post (__load_internal w mt wd name) st
       (fun r _ => forall m, r = Ret (Some m) ->
                             model_type m = mt /\ train_progress m <> None).
Proof.
  unfold __load_internal. apply post_bind.
  apply post_intro. intros r1 st1 _.
  destruct r1 as [tp | e]; [| discriminate].
  apply post_bind. apply post_intro. intros r2 st2 Hbase.
  pose proof (post_run _ _ _ _ _ Hbase (load_diffusers_untouched _ _ _ _ _)) as Hmt.
  cbv beta in Hmt.
  destruct r2 as [[m0 | ] | e]; [| | discriminate].
  - destruct (Hmt m0 eq_refl) as [Hmt0 _].
    wp; try discriminate; intros m [= <-]; simpl; split;
      solve [assumption | discriminate].
  - wp; discriminate.
Qed.

(** X3. Only the internal strategy assigns training state.  A model that
    [load] returns either was returned by [__load_internal], and then its
    [train_progress] is set; or [__load_internal] raised, one of the other
    three strategies produced the model, and the loader has assigned none of
    [train_progress], [optimizer_state_dict] and [ema_state_dict]: they are as
    the [StableDiffusionModel] constructor left them.  In both cases its
    [model_type] is the one asked for. *)
Theorem load_training_state_origin w mt wd name extra st m st' :
  load w mt wd name extra st = (Ret (Some m), st') ->
  model_type m = mt
  /\ ((__load_internal w mt wd name st = (Ret (Some m), st')
       /\ train_progress m <> None)
      \/ ((exists e st1, __load_internal w mt wd name st = (Raise e, st1))
          /\ untouched_training_state w m)).
Proof.
  rewrite load_refines_try_in_order. unfold strategies. rewrite try_in_order_cons.
  pose proof (load_internal_returns_model w mt wd name st) as Hsome.
  unfold post in Hsome.
  destruct (__load_internal w mt wd name st) as [[[m1 | ] | e] st1] eqn:Hint;
    simpl in Hsome; [| contradiction |].
  - intros [= <- <-].
    destruct (post_run _ _ _ _ _ Hint (load_internal_train_progress _ _ _ _ _)
                       m1 eq_refl) as (Hmt & Htp).
    split; [exact Hmt |]. left. split; [reflexivity | exact Htp].
  - intros Hrest.
    assert (Hothers : forall s st0 m0 st0',
               In s [ __load_diffusers w mt wd name; __load_safetensors w mt wd name;
                      __load_ckpt w mt wd name ] ->
               s st0 = (Ret (Some m0), st0') ->
               model_type m0 = mt /\ untouched_training_state w m0).
    { intros s st0 m0 st0' [<- | [<- | [<- | []]]] Hs.
      - exact (post_run _ _ _ _ _ Hs (load_diffusers_untouched _ _ _ _ _) m0 eq_refl).
      - destruct (post_run _ _ _ _ _ Hs (load_safetensors_plain _ _ _ _ _) m0 eq_refl)
          as (Hmt & Hbare & _). split; assumption.
      - destruct (post_run _ _ _ _ _ Hs (load_ckpt_plain _ _ _ _ _) m0 eq_refl)
          as (Hmt & Hbare & _). split; assumption. }
    destruct (try_in_order_returns w name _ _ Hothers _ _ _ _ Hrest)
      as (m' & [= <-] & Hmt & Hbare).
    split; [exact Hmt |]. right. split; [eauto | exact Hbare].
Qed.

Lemma load_training_state_origin_witness :
  (exists m,
      returned (load Demo.disk STABLE_DIFFUSION_15 Demo.float32
                     (Some "runs/broken"%string) None Demo.start) = Some m
      /\ untouched_training_state Demo.disk m)
  /\ (exists m,
         returned (load Demo.disk STABLE_DIFFUSION_15 Demo.float32
                        (Some "runs/backup"%string) None Demo.start) = Some m
         /\ train_progress m <> None).
Proof.
  split.
  - pose (run := load Demo.disk STABLE_DIFFUSION_15 Demo.float32
                      (Some "runs/broken"%string) None Demo.start).
    assert (Hm : exists m, returned run = Some m) by (eexists; vm_compute; reflexivity).
    destruct Hm as (m & Hm). exists m. split; [exact Hm |].
    destruct (load_training_state_origin
                Demo.disk STABLE_DIFFUSION_15 Demo.float32
                (Some "runs/broken"%string) None Demo.start m (snd run))
      as (_ & [(Hint & _) | (_ & Hbare)]).
    + rewrite <- Hm. vm_compute. reflexivity.
    + vm_compute in Hint. discriminate.
    + exact Hbare.
  - pose (run := load Demo.disk STABLE_DIFFUSION_15 Demo.float32
                      (Some "runs/backup"%string) None Demo.start).
    assert (Hm : exists m, returned run = Some m) by (eexists; vm_compute; reflexivity).
    destruct Hm as (m & Hm). exists m. split; [exact Hm |].
    destruct (load_training_state_origin
                Demo.disk STABLE_DIFFUSION_15 Demo.float32
                (Some "runs/backup"%string) None Demo.start m (snd run))
      as (_ & [(_ & Htp) | ((e & st1 & Hint) & _)]).
    + rewrite <- Hm. vm_compute. reflexivity.
    + exact Htp.
    + vm_compute in Hint. discriminate.
Defined.

(** ** Depth components *)

(** X4. In [__load_diffusers] the depth components follow
    [model_type.has_depth_input()]: the returned model has no
    [image_depth_processor] exactly when that call answered [False], and
    otherwise holds what [DPTImageProcessor.from_pretrained] returned for the
    subfolder [feature_extractor]; likewise [depth_estimator], which is loaded
    from the subfolder [depth_estimator] with the torch dtype of the UNet
    weights. *)
Theorem load_diffusers_depth_components w mt wd name st m st' :
  __load_diffusers w mt wd name st = (Ret (Some m), st') ->
  ((image_depth_processor m = None
    /\ answered_since w (calls st) (has_depth_input mt) (Ret false) (calls st'))
   \/ (exists p,
          image_depth_processor m = Some p
          /\ answered_since w (calls st) (has_depth_input mt) (Ret true) (calls st')
          /\ answered_since w (calls st)
               (DPTImageProcessor_from_pretrained name "feature_extractor")
               (Ret p) (calls st')))
  /\ ((depth_estimator m = None
       /\ answered_since w (calls st) (has_depth_input mt) (Ret false) (calls st'))
      \/ (exists dtype d,
             depth_estimator m = Some d
             /\ answered_since w (calls st) (has_depth_input mt) (Ret true) (calls st')
             /\ answered_since w (calls st)
                  (DPTForDepthEstimation_from_pretrained name "depth_estimator" dtype)
                  (Ret d) (calls st')
             /\ answered_since w (calls st) (torch_dtype (wd_unet wd))
                  (Ret dtype) (calls st'))).
Proof.
  intros Hrun.
  refine (post_run _ _ _ _
            (fun r st' =>
               r = Ret (Some m) ->
               ((image_depth_processor m = None
                 /\ answered_since w (calls st) (has_depth_input mt) (Ret false)
                                   (calls st'))
                \/ (exists p,
                       image_depth_processor m = Some p
                       /\ answered_since w (calls st) (has_depth_input mt) (Ret true)
                                         (calls st')
                       /\ answered_since w (calls st)
                            (DPTImageProcessor_from_pretrained name "feature_extractor")
                            (Ret p) (calls st')))
               /\ ((depth_estimator m = None
                    /\ answered_since w (calls st) (has_depth_input mt) (Ret false)
                                      (calls st'))
                   \/ (exists dtype d,
                          depth_estimator m = Some d
                          /\ answered_since w (calls st) (has_depth_input mt) (Ret true)
                                            (calls st')
                          /\ answered_since w (calls st)
                               (DPTForDepthEstimation_from_pretrained
                                  name "depth_estimator" dtype)
                               (Ret d) (calls st')
                          /\ answered_since w (calls st) (torch_dtype (wd_unet wd))
                               (Ret dtype) (calls st'))))
            Hrun _ eq_refl).
  unfold __load_diffusers.
  wp; try discriminate; intros [= <-]; cbn [calls called] in *;
    cbn [image_depth_processor depth_estimator]; split;
    first [ left; split; [reflexivity | find_answer]
          | right; eexists; split; [reflexivity | split; find_answer]
          | right; eexists; eexists; split;
            [reflexivity | split; [find_answer | split; find_answer]] ].
Qed.

Lemma load_diffusers_depth_components_witness :
  exists m,
    returned (__load_diffusers Demo.disk STABLE_DIFFUSION_20_DEPTH Demo.float32
                               (Some "hub/sd15"%string) Demo.start) = Some m
    /\ image_depth_processor m <> None
    /\ depth_estimator m <> None.
Proof.
  pose (run := __load_diffusers Demo.disk STABLE_DIFFUSION_20_DEPTH Demo.float32
                                (Some "hub/sd15"%string) Demo.start).
  assert (Hm : exists m, returned run = Some m) by (eexists; vm_compute; reflexivity).
  destruct Hm as (m & Hm). exists m. split; [exact Hm |].
  destruct (load_diffusers_depth_components
              Demo.disk STABLE_DIFFUSION_20_DEPTH Demo.float32
              (Some "hub/sd15"%string) Demo.start m (snd run))
    as (Hprocessor & Hestimator).
  - rewrite <- Hm. vm_compute. reflexivity.
  - vm_compute in Hm. injection Hm as <-. split; discriminate.
Defined.

(** X5. [__load_ckpt] and [__load_safetensors] never load depth
    components and never assign training state: whatever the model type, also
    for [STABLE_DIFFUSION_20_DEPTH], the model they return has
    [image_depth_processor] and [depth_estimator] set to [None], its
    [model_type] is the one asked for, and [train_progress],
    [optimizer_state_dict] and [ema_state_dict] are as the
    [StableDiffusionModel] constructor left them. *)
Theorem checkpoint_file_models_are_plain w mt wd name st m st' :
  __load_ckpt w mt wd name st = (Ret (Some m), st')
  \/ __load_safetensors w mt wd name st = (Ret (Some m), st') ->
  model_type m = mt
  /\ image_depth_processor m = None
  /\ depth_estimator m = None
  /\ train_progress m = new_model_train_progress w
  /\ optimizer_state_dict m = new_model_optimizer_state_dict w
  /\ ema_state_dict m = new_model_ema_state_dict w.
Proof.
  intros [Hrun | Hrun].
  - destruct (post_run _ _ _ _ _ Hrun (load_ckpt_plain _ _ _ _ _) m eq_refl)
      as (Hmt & (Htp & Hopt & Hema) & Hp & Hd).
    repeat split; assumption.
  - destruct (post_run _ _ _ _ _ Hrun (load_safetensors_plain _ _ _ _ _) m eq_refl)
      as (Hmt & (Htp & Hopt & Hema) & Hp & Hd).
    repeat split; assumption.
Qed.

Lemma checkpoint_file_models_are_plain_witness :
  exists m,
    returned (__load_ckpt Demo.disk STABLE_DIFFUSION_20_DEPTH Demo.float32
                          (Some "models/old.ckpt"%string) Demo.start) = Some m
    /\ model_type m = STABLE_DIFFUSION_20_DEPTH
    /\ depth_estimator m = None.
Proof.
  pose (run := __load_ckpt Demo.disk STABLE_DIFFUSION_20_DEPTH Demo.float32
                           (Some "models/old.ckpt"%string) Demo.start).
  assert (Hm : exists m, returned run = Some m) by (eexists; vm_compute; reflexivity).
  destruct Hm as (m & Hm). exists m. split; [exact Hm |].
  destruct (checkpoint_file_models_are_plain
              Demo.disk STABLE_DIFFUSION_20_DEPTH Demo.float32
              (Some "models/old.ckpt"%string) Demo.start m (snd run))
    as (Hmt & _ & Hd & _).
  - left. rewrite <- Hm. vm_compute. reflexivity.
  - split; assumption.
Defined.

(** ** Model types without a default config file *)

Lemma load_internal_needs_default_yaml w mt wd name st :
  __default_yaml_name mt = None ->
  exists e st', __load_internal w mt wd name st = (Raise e, st').
Proof.
  intros Hnone.
  assert (H : post (__load_internal w mt wd name) st
                   (fun r _ => exists e, r = Raise e)).
  { unfold __load_internal. apply post_bind.
    apply post_intro. intros r1 st1 _.
    destruct r1 as [tp | e]; [| eauto].
    apply post_bind. apply post_intro. intros r2 st2 Hbase.
    destruct (load_diffusers_needs_default_yaml w mt wd name st1 Hnone)
      as (e & st2' & Hfail).
    rewrite Hfail in Hbase. injection Hbase as <- <-. eauto. }
  unfold post in H. destruct (__load_internal w mt wd name st) as [r st'].
  simpl in H. destruct H as (e & ->). eauto.
Qed.

Lemma load_ckpt_needs_config w mt wd name st :
  __default_yaml_name mt = None ->
  post (__load_ckpt w mt wd name) st
       (fun r st' => forall m, r = Ret (Some m) -> found_sidecar w name st st').
Proof.
  intros Hnone. unfold __load_ckpt, found_sidecar, sidecar. rewrite Hnone.
  wp; try discriminate; intros m _; cbn [calls called negb] in *;
    try discriminate;
    repeat match goal with
           | H : negb ?b = _ |- _ => destruct b; try discriminate H; clear H
           end;
    eexists; eexists; (split; [reflexivity |]);
    first [ split; [left; reflexivity | find_answer]
          | split; [right; reflexivity | find_answer] ].
Qed.

Lemma load_safetensors_needs_config w mt wd name st :
  __default_yaml_name mt = None ->
  post (__load_safetensors w mt wd name) st
       (fun r st' => forall m, r = Ret (Some m) -> found_sidecar w name st st').
Proof.
  intros Hnone. unfold __load_safetensors, found_sidecar, sidecar. rewrite Hnone.
  wp; try discriminate; intros m _; cbn [calls called negb] in *;
    try discriminate;
    repeat match goal with
           | H : negb ?b = _ |- _ => destruct b; try discriminate H; clear H
           end;
    eexists; eexists; (split; [reflexivity |]);
    first [ split; [left; reflexivity | find_answer]
          | split; [right; reflexivity | find_answer] ].
Qed.

(** X6. For a model type without a default config file (any type other than
    the eight Stable Diffusion types), [__load_internal] and
    [__load_diffusers] always raise, whatever the checkpoint.  [load] can then
    return a model only through [__load_safetensors] or [__load_ckpt], and only
    when a sidecar [.yaml] or [.yml] file was found beside the checkpoint. *)
Theorem load_without_default_config w mt wd name extra :
  __default_yaml_name mt = None ->
  (forall st, exists e st', __load_internal w mt wd name st = (Raise e, st'))
  /\ (forall st, exists e st', __load_diffusers w mt wd name st = (Raise e, st'))
  /\ (forall st m st',
         load w mt wd name extra st = (Ret (Some m), st') ->
         exists st_k,
           (__load_safetensors w mt wd name st_k = (Ret (Some m), st')
            \/ __load_ckpt w mt wd name st_k = (Ret (Some m), st'))
           /\ found_sidecar w name st_k st').
Proof.
  intros Hnone. split; [| split].
  - intros st. apply load_internal_needs_default_yaml. exact Hnone.
  - intros st. apply load_diffusers_needs_default_yaml. exact Hnone.
  - intros st m st' Hrun. rewrite load_refines_try_in_order in Hrun.
    destruct (try_in_order_cases w name (strategies w mt wd name) st [])
      as [(before & s & after & traces & st_k & m1 & st1 & Hsplit & _ & Hs & Hok)
         | (traces & st_k & _ & Hraise)];
      [| rewrite Hraise in Hrun; discriminate].
    rewrite Hok in Hrun. injection Hrun as <- <-.
    assert (Hin : In s (strategies w mt wd name))
      by (rewrite Hsplit; apply in_or_app; right; left; reflexivity).
    exists st_k. unfold strategies in Hin. simpl in Hin.
    destruct Hin as [<- | [<- | [<- | [<- | []]]]].
    + destruct (load_internal_needs_default_yaml w mt wd name st_k Hnone)
        as (e & st2 & Hfail).
      rewrite Hfail in Hs. discriminate.
    + destruct (load_diffusers_needs_default_yaml w mt wd name st_k Hnone)
        as (e & st2 & Hfail).
      rewrite Hfail in Hs. discriminate.
    + split; [left; exact Hs |].
      exact (post_run _ _ _ _ _ Hs (load_safetensors_needs_config _ _ _ _ _ Hnone)
                      m1 eq_refl).
    + split; [right; exact Hs |].
      exact (post_run _ _ _ _ _ Hs (load_ckpt_needs_config _ _ _ _ _ Hnone)
                      m1 eq_refl).
Qed.

Lemma load_without_default_config_witness :
  (exists e,
      fst (load Demo.disk (OTHER_MODEL_TYPE "STABLE_DIFFUSION_XL_10_BASE") Demo.float32
                (Some "hub/sd15"%string) None Demo.start) = Raise e)
  /\ (exists m,
         returned (load Demo.disk (OTHER_MODEL_TYPE "STABLE_DIFFUSION_XL_10_BASE")
                        Demo.float32 (Some "models/anime.safetensors"%string) None
                        Demo.start) = Some m
         /\ sd_config m = PDict [("config"%string, PStr "models/anime.yaml")]).
Proof.
  pose (mt := OTHER_MODEL_TYPE "STABLE_DIFFUSION_XL_10_BASE").
  split.
  - eexists. vm_compute. reflexivity.
  - pose (run := load Demo.disk mt Demo.float32
                      (Some "models/anime.safetensors"%string) None Demo.start).
    assert (Hm : exists m, returned run = Some m) by (eexists; vm_compute; reflexivity).
    destruct Hm as (m & Hm). exists m. split; [exact Hm |].
    destruct (proj2 (proj2 (load_without_default_config
                              Demo.disk mt Demo.float32
                              (Some "models/anime.safetensors"%string) None eq_refl))
                    Demo.start m (snd run))
      as (st_k & _ & _).
    + rewrite <- Hm. vm_compute. reflexivity.
    + vm_compute in Hm. injection Hm as <-. reflexivity.
Defined.

(** ** The shape of [meta.json] *)

Lemma read_train_progress_run w s st f meta :
  respond w pyobj (calls st) (builtin_open (os_path_join w s ["meta.json"%string]) "r")
  = Ret f ->
  respond w pyval
          (Ev (builtin_open (os_path_join w s ["meta.json"%string]) "r") :: calls st)
          (json_load f) = Ret meta ->
  read_train_progress w (Some s) st
  = (train_progress_of meta,
     called (json_load f)
            (called (builtin_open (os_path_join w s ["meta.json"%string]) "r") st)).
Proof.
  intros Hopen Hjson. apply post_eq. unfold read_train_progress.
  wp_call Hopen. wp_call Hjson.
  wp; unfold train_progress_of;
    repeat match goal with
           | H : subscript _ _ = _ |- _ => rewrite H
           end;
    split; reflexivity.
Qed.

(** X7. What [__load_internal] demands of [meta.json].  Reading the train
    progress succeeds exactly when the decoded file is an object whose
    ["train_progress"] entry is an object with the keys ["epoch"],
    ["epoch_step"], ["epoch_sample"] and ["global_step"]; the values are taken
    as they are, whatever their type.  Otherwise the read raises a [KeyError]
    (missing key) or a [TypeError] (not an object), and [__load_internal]
    raises that exception right after [json.load], before any part of the
    model is loaded. *)
Theorem meta_json_shape w mt wd s st f meta :
  respond w pyobj (calls st) (builtin_open (os_path_join w s ["meta.json"%string]) "r")
  = Ret f ->
  respond w pyval
          (Ev (builtin_open (os_path_join w s ["meta.json"%string]) "r") :: calls st)
          (json_load f) = Ret meta ->
  (forall tp,
      fst (read_train_progress w (Some s) st) = Ret tp
      <-> exists items entries,
          meta = PDict items
          /\ dict_get items "train_progress" = Some (PDict entries)
          /\ dict_get entries "epoch" = Some (epoch tp)
          /\ dict_get entries "epoch_step" = Some (epoch_step tp)
          /\ dict_get entries "epoch_sample" = Some (epoch_sample tp)
          /\ dict_get entries "global_step" = Some (global_step tp))
  /\ (forall e,
         fst (read_train_progress w (Some s) st) = Raise e ->
         (e = KeyError \/ e = TypeError)
         /\ __load_internal w mt wd (Some s) st
            = (Raise e,
               called (json_load f)
                      (called (builtin_open (os_path_join w s ["meta.json"%string]) "r")
                              st))).
Proof.
  intros Hopen Hjson.
  rewrite (read_train_progress_run w s st f meta Hopen Hjson). cbn [fst].
  split.
  - intros tp. unfold train_progress_of, subscript. split.
    + intros H.
      destruct meta as [| | | | | | items]; try discriminate H.
      destruct (dict_get items "train_progress") as [[| | | | | | entries] | ] eqn:E0;
        try discriminate H.
      destruct (dict_get entries "epoch") as [v1 | ] eqn:E1; try discriminate H.
      destruct (dict_get entries "epoch_step") as [v2 | ] eqn:E2; try discriminate H.
      destruct (dict_get entries "epoch_sample") as [v3 | ] eqn:E3;
        try discriminate H.
      destruct (dict_get entries "global_step") as [v4 | ] eqn:E4; try discriminate H.
      injection H as <-. exists items, entries. repeat split; assumption.
    + intros (items & entries & -> & -> & -> & -> & -> & ->).
      destruct tp. reflexivity.
  - intros e He. split.
    + unfold train_progress_of, subscript in He.
      destruct meta as [| | | | | | items]; try (injection He as <-; auto).
      destruct (dict_get items "train_progress") as [[| | | | | | entries] | ];
        try (injection He as <-; auto).
      destruct (dict_get entries "epoch") as [v1 | ]; try (injection He as <-; auto).
      destruct (dict_get entries "epoch_step") as [v2 | ];
        try (injection He as <-; auto).
      destruct (dict_get entries "epoch_sample") as [v3 | ];
        try (injection He as <-; auto).
      destruct (dict_get entries "global_step") as [v4 | ];
        try (injection He as <-; auto).
      discriminate He.
    + unfold __load_internal, bind.
      rewrite (read_train_progress_run w s st f meta Hopen Hjson), He. reflexivity.
Qed.

Lemma meta_json_shape_witness :
  fst (read_train_progress Demo.disk (Some "runs/backup"%string) Demo.start)
  = Ret {| epoch := PInt 3; epoch_step := PInt 120;
           epoch_sample := PInt 480; global_step := PInt 1320 |}.
Proof.
  apply (proj1 (meta_json_shape
                  Demo.disk STABLE_DIFFUSION_15 Demo.float32
                  "runs/backup" Demo.start (Obj "runs/backup/meta.json")
                  Demo.meta_json eq_refl eq_refl)).
  eexists. eexists. repeat split; reflexivity.
Defined.

(** ** Where the exception of a strategy comes from *)

Ltac propagated :=
  intros ? [= <-]; cbn [calls called] in *;
  first [ left; do 3 eexists; split; [reflexivity | split; [extends_done | eassumption]]
        | right; split; [reflexivity | solve [auto] ] ].

Lemma load_diffusers_propagates w mt wd name st :
  post (__load_diffusers w mt wd name) st
       (fun r st' =>
          forall e, r = Raise e ->
                    raised_by_last_call w st e st'
                    \/ (e = TypeError /\ __default_yaml_name mt = None)).
Proof.
  unfold __load_diffusers, raised_by_last_call.
  wp; try (intros ? [=]; fail); propagated.
Qed.

Lemma load_ckpt_propagates w mt wd name st :
  post (__load_ckpt w mt wd name) st
       (fun r st' =>
          forall e, r = Raise e ->
                    raised_by_last_call w st e st'
                    \/ (e = TypeError
                        /\ (name = None \/ __default_yaml_name mt = None))).
Proof.
  unfold __load_ckpt, raised_by_last_call.
  wp; try (intros ? [=]; fail); propagated.
Qed.

Lemma load_safetensors_propagates w mt wd name st :
  post (__load_safetensors w mt wd name) st
       (fun r st' =>
          forall e, r = Raise e ->
                    raised_by_last_call w st e st'
                    \/ (e = TypeError
                        /\ (name = None \/ __default_yaml_name mt = None))).
Proof.
  unfold __load_safetensors, raised_by_last_call.
  wp; try (intros ? [=]; fail); propagated.
Qed.

(** X8. [__load_diffusers], [__load_ckpt] and [__load_safetensors] never
    replace or wrap an exception: when one of them raises [e], then [e] is
    what the last library call it made raised, and nothing was called after
    it.  The only exceptions of their own are the [TypeError] of
    [open(None)] when no config file is known, and, for the two file
    strategies, of [os.path.splitext(None)]. *)
Theorem strategies_propagate_library_errors w mt wd name st e st' :
  (__load_diffusers w mt wd name st = (Raise e, st') ->
   raised_by_last_call w st e st'
   \/ (e = TypeError /\ __default_yaml_name mt = None))
  /\ (__load_ckpt w mt wd name st = (Raise e, st') ->
      raised_by_last_call w st e st'
      \/ (e = TypeError /\ (name = None \/ __default_yaml_name mt = None)))
  /\ (__load_safetensors w mt wd name st = (Raise e, st') ->
      raised_by_last_call w st e st'
      \/ (e = TypeError /\ (name = None \/ __default_yaml_name mt = None))).
Proof.
  repeat split; intros Hrun.
  - exact (post_run _ _ _ _ _ Hrun (load_diffusers_propagates _ _ _ _ _) e eq_refl).
  - exact (post_run _ _ _ _ _ Hrun (load_ckpt_propagates _ _ _ _ _) e eq_refl).
  - exact (post_run _ _ _ _ _ Hrun (load_safetensors_propagates _ _ _ _ _) e eq_refl).
Qed.

Lemma strategies_propagate_library_errors_witness :
  raised_by_last_call Demo.disk Demo.start (LibraryError "OSError")
    (snd (__load_diffusers Demo.disk STABLE_DIFFUSION_15 Demo.float32
                           (Some "models/old.ckpt"%string) Demo.start)).
Proof.
  destruct (proj1 (strategies_propagate_library_errors
                     Demo.disk STABLE_DIFFUSION_15 Demo.float32
                     (Some "models/old.ckpt"%string) Demo.start
                     (LibraryError "OSError")
                     (snd (__load_diffusers Demo.disk STABLE_DIFFUSION_15 Demo.float32
                                            (Some "models/old.ckpt"%string)
                                            Demo.start))))
    as [Hlast | (Hown & _)].
  - vm_compute. reflexivity.
  - exact Hlast.
  - discriminate Hown.
Defined.

(** ** The error message for a string name *)

(** X9. When [base_model_name] is a string [s], the only exception [load]
    ever raises is [Exception("could not load model: " + s)]: no exception of
    a strategy reaches the caller, and [load] raises that exception whenever
    the four strategies have raised in turn. *)
Theorem load_error_message w mt wd s extra st :
  (forall ex st',
      load w mt wd (Some s) extra st = (Raise ex, st') ->
      ex = Exception ("could not load model: " ++ s)%string)
  /\ (forall e1 st1 e2 st2 e3 st3 e4 st4,
         __load_internal w mt wd (Some s) st = (Raise e1, st1) ->
         __load_diffusers w mt wd (Some s) st1 = (Raise e2, st2) ->
         __load_safetensors w mt wd (Some s) st2 = (Raise e3, st3) ->
         __load_ckpt w mt wd (Some s) st3 = (Raise e4, st4) ->
         fst (load w mt wd (Some s) extra st)
         = Raise (Exception ("could not load model: " ++ s)%string)).
Proof.
  split.
  - intros ex st' Hrun.
    destruct (load_raise_inv _ _ _ _ _ _ _ _ Hrun)
      as (e1 & st1 & e2 & st2 & e3 & st3 & e4 & st4 & _ & _ & _ & _ & Hex & _).
    exact Hex.
  - intros e1 st1 e2 st2 e3 st3 e4 st4 H1 H2 H3 H4.
    rewrite load_refines_try_in_order. unfold strategies.
    rewrite try_in_order_cons, H1. cbv beta iota.
    rewrite try_in_order_cons, H2. cbv beta iota.
    rewrite try_in_order_cons, H3. cbv beta iota.
    rewrite try_in_order_cons, H4. cbv beta iota.
    rewrite try_in_order_nil. reflexivity.
Qed.

Lemma load_error_message_witness :
  fst (load Demo.disk STABLE_DIFFUSION_15 Demo.float32
            (Some "models/missing.ckpt"%string) None Demo.start)
  = Raise (Exception "could not load model: models/missing.ckpt").
Proof.
  eapply (proj2 (load_error_message
                   Demo.disk STABLE_DIFFUSION_15 Demo.float32
                   "models/missing.ckpt" None Demo.start));
    vm_compute; reflexivity.
Defined.
